(** * The inference server of [model-server/server.py]

    A shallow embedding of the request handler [infer], the classifier
    [IrisClassifier] and the metric registration helper
    [get_or_create_metric], followed by the properties the specification
    states about them.

    The program leans on three libraries that are not part of the
    repository: NumPy (array construction, [@], [exp], [max], [argmax]),
    prometheus_client (the collector registry) and pydantic (the request
    and response schemas).  What the handler needs from them is modelled
    here as far as the handler can observe it; floating-point arithmetic
    itself is kept abstract in the class [FloatOps], with the standard
    model of rounding in the class [FloatModel] where a property depends
    on how the operations round.

    A handler is a function of the process state: it returns what the
    Python function returns or raises, together with the state it leaves.
    The two readings of [time.time()] are arguments.  Log lines are not
    kept, and what FastAPI does with a returned response (validation
    against [response_model], JSON rendering) lies outside the handler. *)

From Stdlib Require Import ZArith QArith Qround Qabs Qpower Lqa.
From stdpp Require Import base option list strings gmap.

Local Open Scope Z_scope.
Local Open Scope string_scope.
Local Open Scope list_scope.

(** ** Python exceptions and fallible computations *)

(** The exception classes the handler can meet inside its [try] block.
    All of them derive from [Exception]. *)
Inductive exn : Type :=
  | IndexError
  | ValueError
  | TypeError.

Inductive result (T : Type) : Type :=
  | Return (x : T)
  | Raise (e : exn).
Arguments Return {T} x.
Arguments Raise {T} e.

#[global] Instance result_ret : MRet result := fun _ x => Return x.
#[global] Instance result_bind : MBind result := fun _ _ f m =>
  match m with
  | Return x => f x
  | Raise e => Raise e
  end.

Definition is_Return {T} (r : result T) : bool :=
  match r with Return _ => true | Raise _ => false end.

#[global] Instance exn_eq_dec : EqDecision exn.
Proof. solve_decision. Defined.

(** ** Floating-point numbers

    NumPy's [float32]/[float64] arithmetic is a parameter of the
    development: the handler's control flow, its shapes and its metrics do
    not depend on how the operations round. *)
Class FloatOps (F : Type) : Type := {
  f_zero : F;
  fadd : F -> F -> F;
  fsub : F -> F -> F;
  fmul : F -> F -> F;
  fdiv : F -> F -> F;
  fexp : F -> F;
  (** IEEE [<=]: false as soon as one operand is a NaN. *)
  fle : F -> F -> bool;
  fisnan : F -> bool;
}.

(** The order facts of IEEE 754 comparison that [argmax] relies on. *)
Class FloatOrder (F : Type) `{FloatOps F} : Prop := {
  fle_trans : forall a b c, fle a b = true -> fle b c = true -> fle a c = true;
  fle_total : forall a b,
    fisnan a = false -> fisnan b = false -> fle a b = true \/ fle b a = true;
  fle_nan_l : forall a b, fisnan a = true -> fle a b = false;
}.

(** ** Rounded arithmetic

    The standard model of floating-point arithmetic, for the [float64]
    numbers [predict] computes with: a float is finite, with a rational
    value, or it is an infinity or a NaN; an operation on finite floats
    whose exact result stays in range returns the exact result up to a
    relative error, and up to an absolute error where the result can
    underflow.  The three constants are far on the safe side of
    [float64]. *)
Definition ROUNDING : Q := 1 # 1000000.
Definition UNDERFLOW : Q := 1 # 1000000.
Definition RANGE : Q := 2 ^ 1000.

(** The value of a finite float; [None] for an infinity and a NaN. *)
Class FloatValue (F : Type) : Type := {
  fval : F -> option Q;
}.

Class FloatModel (F : Type) `{FloatOps F} `{FloatValue F} : Prop := {
  fval_zero : exists z, fval f_zero = Some z /\ (z == 0)%Q;
  fisnan_finite : forall a x, fval a = Some x -> fisnan a = false;
  fle_finite : forall a b x y,
    fval a = Some x -> fval b = Some y -> fle a b = Qle_bool x y;
  fadd_rounds : forall a b x y,
    fval a = Some x -> fval b = Some y -> (Qabs (x + y) <= RANGE)%Q ->
    exists z, fval (fadd a b) = Some z /\
      (Qabs (z - (x + y)) <= ROUNDING * Qabs (x + y))%Q;
  fsub_rounds : forall a b x y,
    fval a = Some x -> fval b = Some y -> (Qabs (x - y) <= RANGE)%Q ->
    exists z, fval (fsub a b) = Some z /\
      (Qabs (z - (x - y)) <= ROUNDING * Qabs (x - y))%Q;
  fmul_rounds : forall a b x y,
    fval a = Some x -> fval b = Some y -> (Qabs (x * y) <= RANGE)%Q ->
    exists z, fval (fmul a b) = Some z /\
      (Qabs (z - x * y) <= ROUNDING * Qabs (x * y) + UNDERFLOW)%Q;
  (** [z] stands for [x / y]; the bound is the usual one multiplied by
      [|y|]. *)
  fdiv_rounds : forall a b x y,
    fval a = Some x -> fval b = Some y -> ~ (y == 0)%Q ->
    (Qabs x <= RANGE * Qabs y)%Q ->
    exists z, fval (fdiv a b) = Some z /\
      (Qabs (z * y - x) <= ROUNDING * Qabs x + UNDERFLOW * Qabs y)%Q;
  (** [exp] on the non-positive numbers: a value between 0 and 1, and 1
      at 0. *)
  fexp_nonpos : forall a x,
    fval a = Some x -> (x <= 0)%Q ->
    exists z, fval (fexp a) = Some z /\
      (0 <= z)%Q /\ (z <= 1 + ROUNDING)%Q /\
      ((x == 0)%Q -> (1 - ROUNDING <= z)%Q);
}.

(** ** JSON payloads

    [data: List[Any]]: pydantic hands the handler whatever the JSON body
    held.  A payload is a tree whose inner nodes are Python lists and whose
    leaves are the values NumPy treats as scalars (numbers, booleans,
    strings, [None], dicts), of an abstract type [A]. *)
#[local] Unset Elimination Schemes.
Inductive any (A : Type) : Type :=
  | Atom (a : A)
  | Seq (l : list (any A)).
#[local] Set Elimination Schemes.
Arguments Atom {A} a.
Arguments Seq {A} l.

(** How [np.array(..., dtype=np.float32)] treats one leaf, and the largest
    number of dimensions the installed NumPy supports. *)
Class Float32Cast (A F : Type) : Type := {
  as_float32 : A -> result F;
  NPY_MAXDIMS : nat;
}.

(** ** NumPy arrays: a shape and the elements in row-major order *)
Record ndarray (F : Type) : Type := mk_ndarray {
  nd_shape : list nat;
  nd_flat : list F;
}.
Arguments mk_ndarray {F} nd_shape nd_flat.
Arguments nd_shape {F} n.
Arguments nd_flat {F} n.

Definition ndim {F} (a : ndarray F) : nat := length (nd_shape a).

Definition prod_shape (sh : list nat) : nat := foldr Nat.mul 1%nat sh.

(** Shape discovery for a list whose items have the shapes [ss]: an empty
    list is a zero-length axis; otherwise every item must have the shape of
    the first one, and a ragged nesting has no shape. *)
Definition seq_shape (ss : list (option (list nat))) : option (list nat) :=
  match ss with
  | [] => Some [0%nat]
  | None :: _ => None
  | Some s :: rest =>
      if forallb (fun o => bool_decide (o = Some s)) rest
      then Some (length ss :: s)
      else None
  end.

Fixpoint discover_shape {A} (x : any A) : option (list nat) :=
  match x with
  | Atom _ => Some []
  | Seq l => seq_shape (map discover_shape l)
  end.

(** The leaves of a payload, left to right. *)
Fixpoint leaves {A} (x : any A) : list A :=
  match x with
  | Atom a => [a]
  | Seq l => concat (map leaves l)
  end.

(** The number of scalar elements of a payload, whatever its nesting. *)
Definition element_count {A} (data : list (any A)) : nat :=
  length (leaves (Seq data)).

Section Decoder.
Context {A F : Type} `{Float32Cast A F}.

(** [np.array(data, dtype=np.float32)] on a Python list. *)
Definition np_array (data : list (any A)) : result (ndarray F) :=
  match discover_shape (Seq data) with
  | None => Raise ValueError
  | Some sh =>
      if (NPY_MAXDIMS <? length sh)%nat then Raise ValueError
      else
        xs ← mapM as_float32 (leaves (Seq data));
        Return (mk_ndarray sh xs)
  end.

(** [raw.reshape(1, -1)] *)
Definition reshape_1_minus1 (raw : ndarray F) : ndarray F :=
  mk_ndarray [1%nat; length (nd_flat raw)] (nd_flat raw).

(** Lines 144-146 of [infer], for the tensor [request.inputs[0]]:
<<
    raw = np.array(request.inputs[0].data, dtype=np.float32)
    if raw.ndim == 1:
        raw = raw.reshape(1, -1)
>>  *)
Definition decode_data (data : list (any A)) : result (ndarray F) :=
  raw ← np_array data;
  if (ndim raw =? 1)%nat then Return (reshape_1_minus1 raw) else Return raw.
End Decoder.

(** ** The classifier *)

Definition MODEL_NAME : string := "iris-classifier".
Definition MODEL_VERSION : string := "v1.0.0".
Definition CLASSES : list string := ["setosa"; "versicolor"; "virginica"].

(** The two literals of [np.random.randn(4, 3)]. *)
Definition N_FEATURES : nat := 4.
Definition N_CLASSES : nat := 3.

(** [self.weights] is only ever assigned [np.random.randn(4, 3)], so it is
    kept as the entries [weights i j] of a 4 x 3 array, [i < 4], [j < 3]. *)
Record IrisClassifier (F : Type) : Type := mk_model {
  loaded : bool;
  weights : nat -> nat -> F;
}.
Arguments mk_model {F} loaded weights.
Arguments loaded {F} i.
Arguments weights {F} i _ _.

(** The dictionary [predict] returns. *)
Record prediction (F : Type) : Type := mk_prediction {
  probabilities : list (list F);
  predicted_class : list string;
  confidence : list F;
}.
Arguments mk_prediction {F} probabilities predicted_class confidence.
Arguments probabilities {F} p.
Arguments predicted_class {F} p.
Arguments confidence {F} p.

Section Classifier.
Context {F : Type} `{FloatOps F}.

(** The rows of a C-contiguous array of shape [(n, k)]. *)
Definition rows (n k : nat) (flat : list F) : list (list F) :=
  reshape (replicate n k) flat.

(** One entry of [inputs @ self.weights]. *)
Definition dot (w : nat -> nat -> F) (x : list F) (j : nat) : F :=
  foldl fadd f_zero
    (imap (fun i xi => fmul xi (w i j)) x).

Definition matmul (xs : list (list F)) (w : nat -> nat -> F)
  : list (list F) :=
  map (fun x => map (dot w x) (seq 0 N_CLASSES)) xs.

(** [np.maximum], which propagates NaN. *)
Definition fmaximum (a b : F) : F :=
  if fle b a || fisnan a then a else b.

(** [row.max()]; NumPy refuses an empty reduction. *)
Definition np_max (row : list F) : result F :=
  match row with
  | [] => Raise ValueError
  | x :: l => Return (foldl fmaximum x l)
  end.

Definition np_sum (row : list F) : F := foldl fadd f_zero row.

(** Lines 90-91 for one row:
<<
    exp = np.exp(logits - logits.max(axis=1, keepdims=True))
    probs = exp / exp.sum(axis=1, keepdims=True)
>>  *)
Definition softmax_row (logits : list F) : result (list F) :=
  m ← np_max logits;
  let exp := map (fun x => fexp (fsub x m)) logits in
  let total := np_sum exp in
  Return (map (fun e => fdiv e total) exp).

(** NumPy's [argmax] kernel on one row: the running maximum [mp] is
    replaced by a later element only when that element is not [<= mp],
    and a NaN ends the scan. *)
Fixpoint argmax_loop (mp : F) (max_ind i : nat) (l : list F) : nat :=
  match l with
  | [] => max_ind
  | x :: l' =>
      if fle x mp then argmax_loop mp max_ind (S i) l'
      else if fisnan x then i
      else argmax_loop x i (S i) l'
  end.

Definition argmax (row : list F) : result nat :=
  match row with
  | [] => Raise ValueError
  | x :: l => Return (if fisnan x then 0%nat else argmax_loop x 0 1 l)
  end.

(** [self.CLASSES[i]] *)
Definition class_at (i : nat) : result string :=
  match CLASSES !! i with
  | Some c => Return c
  | None => Raise IndexError
  end.

(** [IrisClassifier.predict].  A two-dimensional input is the case the
    handler is written for.  With more dimensions [@] broadcasts when the
    last axis has 4 entries, and then [np.argmax(probs, axis=1)] is no
    longer a vector of integers: each [i] of the comprehension is an
    array and [self.CLASSES[i]] raises [TypeError], unless the first axis
    is empty (nothing to iterate) or the reduced axis is empty (the
    reduction raises). *)
Definition predict (self : IrisClassifier F) (inputs : ndarray F)
  : result (prediction F) :=
  match nd_shape inputs with
  | [n; k] =>
      if (k =? N_FEATURES)%nat then
        let logits := matmul (rows n k (nd_flat inputs)) (weights self) in
        probs ← mapM softmax_row logits;
        predicted_idx ← mapM argmax probs;
        classes ← mapM class_at predicted_idx;
        conf ← mapM np_max probs;
        Return (mk_prediction probs classes conf)
      else Raise ValueError
  | d0 :: d1 :: rest =>
      if bool_decide (last rest = Some N_FEATURES) then
        if (d1 =? 0)%nat then Raise ValueError
        else if (d0 =? 0)%nat then Return (mk_prediction [] [] [])
        else Raise TypeError
      else Raise ValueError
  | _ => Raise ValueError
  end.
End Classifier.

(** ** Protocol schemas (the pydantic models) *)

Record InferenceInput (A : Type) : Type := mk_input {
  name : string;
  shape : list Z;
  datatype : string;
  data : list (any A);
}.
Arguments mk_input {A} name shape datatype data.
Arguments name {A} i.
Arguments shape {A} i.
Arguments datatype {A} i.
Arguments data {A} i.

Record InferenceRequest (A : Type) : Type := mk_request {
  req_id : option string;
  inputs : list (InferenceInput A);
}.
Arguments mk_request {A} req_id inputs.
Arguments req_id {A} i.
Arguments inputs {A} i.

(** [data: List[Any]] of an output: rows of floats or a list of labels. *)
Inductive out_data (F : Type) : Type :=
  | FloatRows (r : list (list F))
  | Labels (l : list string).
Arguments FloatRows {F} r.
Arguments Labels {F} l.

Record InferenceOutput (F : Type) : Type := mk_output {
  o_name : string;
  o_shape : list nat;
  o_datatype : string;
  o_data : out_data F;
}.
Arguments mk_output {F} o_name o_shape o_datatype o_data.
Arguments o_name {F} i.
Arguments o_shape {F} i.
Arguments o_datatype {F} i.
Arguments o_data {F} i.

Record InferenceResponse (F : Type) : Type := mk_response {
  resp_id : option string;
  model_name : string;
  model_version : string;
  outputs : list (InferenceOutput F);
}.
Arguments mk_response {F} resp_id model_name model_version outputs.
Arguments resp_id {F} i.
Arguments model_name {F} i.
Arguments model_version {F} i.
Arguments outputs {F} i.

(** [detail] of an [HTTPException]: a literal, or [str(e)]. *)
Inductive detail_text : Type :=
  | Text (s : string)
  | StrOf (e : exn).

Record HTTPException : Type := mk_http {
  status_code : Z;
  detail : detail_text;
}.

(** An entry of the metadata document's [inputs] and [outputs]. *)
Record tensor_spec : Type := mk_tensor_spec {
  ts_name : string;
  ts_datatype : string;
  ts_shape : list Z;
}.

(** The dictionary [model_metadata] returns. *)
Record Metadata : Type := mk_metadata {
  md_name : string;
  md_versions : list string;
  md_platform : string;
  md_inputs : list tensor_spec;
  md_outputs : list tensor_spec;
}.

(** Whether an array shape fits a declared shape, in which [-1] leaves a
    dimension open. *)
Fixpoint shape_fits (declared : list Z) (actual : list nat) : bool :=
  match declared, actual with
  | [], [] => true
  | d :: ds, a :: actuals =>
      ((d =? -1)%Z || (d =? Z.of_nat a)%Z) && shape_fits ds actuals
  | _, _ => false
  end.

(** ** The process state: the module-level globals

    Each metric global is [None] or a metric object; the object is
    represented by the values it holds.  Counters and the in-flight gauge
    only ever move by one and are kept as integers. *)
Record Server (F : Type) : Type := mk_server {
  model : IrisClassifier F;
  REQUEST_COUNT : option (gmap (string * string) nat);
  REQUEST_LATENCY : option (gmap string (list F));
  ACTIVE_REQUESTS : option Z;
  MODEL_LOADED : option (gmap string Z);
}.
Arguments mk_server {F} model REQUEST_COUNT REQUEST_LATENCY ACTIVE_REQUESTS
  MODEL_LOADED.
Arguments model {F} s.
Arguments REQUEST_COUNT {F} s.
Arguments REQUEST_LATENCY {F} s.
Arguments ACTIVE_REQUESTS {F} s.
Arguments MODEL_LOADED {F} s.

Section Metrics.
Context {F : Type}.

(** [if ACTIVE_REQUESTS: ACTIVE_REQUESTS.inc()] *)
Definition active_inc (s : Server F) : Server F :=
  mk_server (model s) (REQUEST_COUNT s) (REQUEST_LATENCY s)
    ((fun v => v + 1) <$> ACTIVE_REQUESTS s) (MODEL_LOADED s).

(** [if ACTIVE_REQUESTS: ACTIVE_REQUESTS.dec()] *)
Definition active_dec (s : Server F) : Server F :=
  mk_server (model s) (REQUEST_COUNT s) (REQUEST_LATENCY s)
    ((fun v => v - 1) <$> ACTIVE_REQUESTS s) (MODEL_LOADED s).

Definition counter_inc (key : string * string)
  (c : gmap (string * string) nat) : gmap (string * string) nat :=
  <[key := S (default 0%nat (c !! key))]> c.

(** [if REQUEST_COUNT:
       REQUEST_COUNT.labels(model=model.MODEL_NAME, status=...).inc()] *)
Definition count_request (status : string) (s : Server F) : Server F :=
  mk_server (model s) (counter_inc (MODEL_NAME, status) <$> REQUEST_COUNT s)
    (REQUEST_LATENCY s) (ACTIVE_REQUESTS s) (MODEL_LOADED s).

Definition histogram_observe (key : string) (x : F)
  (h : gmap string (list F)) : gmap string (list F) :=
  <[key := default [] (h !! key) ++ [x]]> h.

(** [if REQUEST_LATENCY:
       REQUEST_LATENCY.labels(model=model.MODEL_NAME).observe(duration)] *)
Definition observe_latency (duration : F) (s : Server F) : Server F :=
  mk_server (model s) (REQUEST_COUNT s)
    (histogram_observe MODEL_NAME duration <$> REQUEST_LATENCY s)
    (ACTIVE_REQUESTS s) (MODEL_LOADED s).

(** The value of one series of the request counter (0 before its first
    increment, and when the counter is absent). *)
Definition request_count (status : string) (s : Server F) : nat :=
  default 0%nat (c ← REQUEST_COUNT s; c !! (MODEL_NAME, status)).

(** The latencies observed so far for this model. *)
Definition latencies (s : Server F) : list F :=
  default [] (h ← REQUEST_LATENCY s; h !! MODEL_NAME).

(** [IrisClassifier.load]; [w] is the matrix [np.random.randn(4, 3)]
    draws. *)
Definition load (w : nat -> nat -> F) (s : Server F) : Server F :=
  mk_server (mk_model true w) (REQUEST_COUNT s) (REQUEST_LATENCY s)
    (ACTIVE_REQUESTS s) (<[MODEL_NAME := 1]> <$> MODEL_LOADED s).
End Metrics.

(** A call on one of the metric objects. *)
Inductive metric_op (F : Type) : Type :=
  | ActiveInc
  | ActiveDec
  | CountRequest (status : string)
  | ObserveLatency (duration : F).
Arguments ActiveInc {F}.
Arguments ActiveDec {F}.
Arguments CountRequest {F} status.
Arguments ObserveLatency {F} duration.

(** What the call does to the process state. *)
Definition perform {F : Type} (op : metric_op F) (s : Server F) : Server F :=
  match op with
  | ActiveInc => active_inc s
  | ActiveDec => active_dec s
  | CountRequest status => count_request status s
  | ObserveLatency duration => observe_latency duration s
  end.

(** The state after a sequence of calls. *)
Definition replay {F : Type} (ops : list (metric_op F)) (s : Server F)
  : Server F :=
  foldl (fun st op => perform op st) s ops.

(** A guarded call, [if METRIC: METRIC.op(...)]: when the global is not
    [None] the call is made and written to the log. *)
Definition call_metric {F T : Type} (metric : option T) (op : metric_op F)
  (st : Server F * list (metric_op F)) : Server F * list (metric_op F) :=
  match metric with
  | Some _ => (perform op st.1, st.2 ++ [op])
  | None => st
  end.

(** ** The routes *)

Section Routes.
Context {A F : Type} `{FloatOps F} `{Float32Cast A F}.

(** [request.inputs[0]] *)
Definition first_input (request : InferenceRequest A)
  : result (InferenceInput A) :=
  match inputs request with
  | [] => Raise IndexError
  | i :: _ => Return i
  end.

(** [list(np.array(rows).shape)] for a list of rows of floats. *)
Definition shape_of_rows (r : list (list F)) : result (list nat) :=
  match seq_shape (map (fun row => Some [length row]) r) with
  | Some sh => Return sh
  | None => Raise ValueError
  end.

(** The body of the [try] block; [start] and [now] are the two readings
    of [time.time()]. *)
Definition infer_try (request : InferenceRequest A) (start now : F)
  (s : Server F) : result (InferenceResponse F) * Server F :=
  match (inp ← first_input request;
         raw ← decode_data (data inp);
         predict (model s) raw) with
  | Raise e => (Raise e, s)
  | Return res =>
      let duration := fsub now start in
      let s1 := count_request "success" s in
      let s2 := observe_latency duration s1 in
      (sh ← shape_of_rows (probabilities res);
       Return (mk_response (req_id request) MODEL_NAME MODEL_VERSION
         [ mk_output "probabilities" sh "FP32"
             (FloatRows (probabilities res));
           mk_output "predicted_class" [length (predicted_class res)]
             "BYTES" (Labels (predicted_class res)) ]),
       s2)
  end.

(** [POST /v2/models/{model_name}/infer] *)
Definition infer (model_name : string) (request : InferenceRequest A)
  (start now : F) (s : Server F)
  : (HTTPException + InferenceResponse F) * Server F :=
  if negb (loaded (model s)) then
    (inl (mk_http 503 (Text "Model not ready")), s)
  else
    let s0 := active_inc s in
    let '(r, s1) := infer_try request start now s0 in
    let '(out, s2) :=
      match r with
      | Return resp => (inr resp, s1)
      | Raise e => (inl (mk_http 500 (StrOf e)), count_request "error" s1)
      end in
    (out, active_dec s2).

(** [infer] once more, statement by statement, keeping a log of the calls
    it makes on the metric objects, in the order in which it makes them. *)
Definition infer_traced (model_name : string) (request : InferenceRequest A)
  (start now : F) (s : Server F)
  : (HTTPException + InferenceResponse F) * Server F * list (metric_op F) :=
  if negb (loaded (model s)) then
    (inl (mk_http 503 (Text "Model not ready")), s, [])
  else
    let st0 := call_metric (ACTIVE_REQUESTS s) ActiveInc (s, []) in
    let '(r, st1) :=
      match (inp ← first_input request;
             raw ← decode_data (data inp);
             predict (model st0.1) raw) with
      | Raise e => (Raise e, st0)
      | Return res =>
          let duration := fsub now start in
          let st_count :=
            call_metric (REQUEST_COUNT st0.1) (CountRequest "success") st0 in
          let st_latency :=
            call_metric (REQUEST_LATENCY st_count.1) (ObserveLatency duration)
              st_count in
          (sh ← shape_of_rows (probabilities res);
           Return (mk_response (req_id request) MODEL_NAME MODEL_VERSION
             [ mk_output "probabilities" sh "FP32"
                 (FloatRows (probabilities res));
               mk_output "predicted_class" [length (predicted_class res)]
                 "BYTES" (Labels (predicted_class res)) ]),
           st_latency)
      end in
    let '(out, st2) :=
      match r with
      | Return resp => (inr resp, st1)
      | Raise e =>
          (inl (mk_http 500 (StrOf e)),
           call_metric (REQUEST_COUNT st1.1) (CountRequest "error") st1)
      end in
    let st3 := call_metric (ACTIVE_REQUESTS st2.1) ActiveDec st2 in
    (out, st3.1, st3.2).

(** Whether a call is one on the gauge of active requests. *)
Definition on_active_gauge (op : metric_op F) : bool :=
  match op with
  | ActiveInc | ActiveDec => true
  | _ => false
  end.

(** The status line the client sees: 200 for a returned response, the
    exception's [status_code] otherwise. *)
Definition http_status (r : HTTPException + InferenceResponse F) : Z :=
  match r with
  | inl err => status_code err
  | inr _ => 200
  end.

(** [GET /health] *)
Definition health (s : Server F) : string * bool * string :=
  ("ok", loaded (model s), MODEL_NAME).

(** [GET /ready] *)
Definition ready (s : Server F) : HTTPException + string :=
  if negb (loaded (model s))
  then inl (mk_http 503 (Text "Model not ready"))
  else inr "ready".

(** Everything that can happen to the process after start-up: one of
    the five routes is served, or [load] runs. *)
Inductive call : Type :=
  | Health
  | Ready
  | ModelMetadata (model_name : string)
  | Infer (model_name : string) (request : InferenceRequest A)
      (start now : F)
  | MetricsRoute
  | Load (w : nat -> nat -> F).

Definition step (c : call) (s : Server F) : Server F :=
  match c with
  | Health | Ready | ModelMetadata _ | MetricsRoute => s
  | Infer n request start now => (infer n request start now s).2
  | Load w => load w s
  end.
(** [GET /v2/models/{model_name}]: the same document for every name. *)
Definition model_metadata (model_name : string) : Metadata :=
  mk_metadata MODEL_NAME [MODEL_VERSION] "python"
    [mk_tensor_spec "input" "FP32" [-1; 4]]
    [mk_tensor_spec "probabilities" "FP32" [-1; 3]].

(** A run of the process: the calls are served one after the other. *)
Definition run (cs : list call) (s : Server F) : Server F :=
  foldl (fun st c => step c st) s cs.

(** The number of requests to the inference route among the calls. *)
Definition is_infer (c : call) : bool :=
  match c with
  | Infer _ _ _ _ => true
  | _ => false
  end.

Definition infer_calls (cs : list call) : nat :=
  length (List.filter is_infer cs).

(** The response of a successful call, for the prediction [p] of a batch
    of [n] rows. *)
Definition success_response (request : InferenceRequest A) (n : nat) (p : prediction F)
  : InferenceResponse F :=
  mk_response (req_id request) MODEL_NAME MODEL_VERSION
    [ mk_output "probabilities" [n; N_CLASSES] "FP32"
        (FloatRows (probabilities p));
      mk_output "predicted_class" [n] "BYTES" (Labels (predicted_class p)) ].
End Routes.

(** ** The collector registry of prometheus_client *)

Inductive metric_class : Type := Counter | Histogram | Gauge.

#[global] Instance metric_class_eq_dec : EqDecision metric_class.
Proof. solve_decision. Defined.

(** A metric object; [c_id] stands for the identity of the Python
    object. *)
Record collector : Type := mk_collector {
  c_id : nat;
  c_class : metric_class;
  c_name : string;
  c_labelnames : list string;
}.

#[global] Instance collector_eq_dec : EqDecision collector.
Proof. solve_decision. Defined.

(** [REGISTRY]: the dictionary [_names_to_collectors], and the supply of
    fresh object identities. *)
Record CollectorRegistry : Type := mk_registry {
  names_to_collectors : gmap string collector;
  next_id : nat;
}.

(** The keyword arguments the program passes: none, or [buckets=...]. *)
Definition kwargs : Type := option (list Q).

(** Whether Python can bind the keywords to the constructor: only
    [Histogram] has a parameter named [buckets]. *)
Definition accepts (cls : metric_class) (kw : kwargs) : bool :=
  match kw, cls with
  | None, _ => true
  | Some _, Histogram => true
  | Some _, _ => false
  end.

(** [s[:-len(suf)]] when [s.endswith(suf)]. *)
Fixpoint strip_suffix (suf s : string) : option string :=
  if String.eqb s suf then Some ""
  else match s with
       | EmptyString => None
       | String c s' => String c <$> strip_suffix suf s'
       end.

(** [_build_full_name]: a counter's name loses a trailing [_total]. *)
Definition full_name (cls : metric_class) (n : string) : string :=
  match cls with
  | Counter => default n (strip_suffix "_total" n)
  | _ => n
  end.

(** [CollectorRegistry._get_names]: the series a collector produces and
    clashes with. *)
Definition metric_names (cls : metric_class) (full : string) : list string :=
  full ::
  map (fun suffix => full +:+ suffix)
    match cls with
    | Counter => ["_total"; "_created"]
    | Histogram => ["_bucket"; "_sum"; "_count"; "_created"]
    | Gauge => []
    end.

Section Registry.
(** The argument checks of the metric constructors (name and label
    syntax, reserved labels, bucket order); each failure is a
    [ValueError]. *)
Variable valid : metric_class -> string -> list string -> kwargs -> bool.

(** [CollectorRegistry.register] *)
Definition register (c : collector) (reg : CollectorRegistry)
  : result CollectorRegistry :=
  let names := metric_names (c_class c) (c_name c) in
  if existsb (fun n => bool_decide (is_Some (names_to_collectors reg !! n)))
       names
  then Raise ValueError
  else Return (mk_registry
                 (foldr (fun n m => <[n := c]> m) (names_to_collectors reg)
                    names)
                 (S (next_id reg))).

(** [metric_class(name, description, labelnames, **kwargs)] *)
Definition construct (cls : metric_class) (n description : string)
  (labelnames : list string) (kw : kwargs) (reg : CollectorRegistry)
  : result (collector * CollectorRegistry) :=
  if negb (accepts cls kw) then Raise TypeError
  else if negb (valid cls n labelnames kw) then Raise ValueError
  else
    let c := mk_collector (next_id reg) cls (full_name cls n) labelnames in
    reg' ← register c reg;
    Return (c, reg').

(** Lines 22-30. *)
Definition get_or_create_metric (cls : metric_class)
  (n description : string) (labels : option (list string)) (kw : kwargs)
  (reg : CollectorRegistry)
  : result (option collector) * CollectorRegistry :=
  let made :=
    match labels with
    | Some ((_ :: _) as l) => construct cls n description l kw reg
    | _ => construct cls n description [] kw reg
    end in
  match made with
  | Return (c, reg') => (Return (Some c), reg')
  | Raise ValueError => (Return (names_to_collectors reg !! n), reg)
  | Raise e => (Raise e, reg)
  end.

(** Lines 32-44: the four module-level metrics, in order. *)
Definition module_metrics (reg : CollectorRegistry)
  : result (list (option collector)) * CollectorRegistry :=
  let '(r1, reg1) :=
    get_or_create_metric Counter "inference_requests_total"
      "Total inference requests" (Some ["model"; "status"]) None reg in
  let '(r2, reg2) :=
    get_or_create_metric Histogram "inference_request_duration_seconds"
      "Inference latency in seconds" (Some ["model"])
      (Some [0.01; 0.025; 0.05; 0.1; 0.25; 0.5; 1.0; 2.5]%Q) reg1 in
  let '(r3, reg3) :=
    get_or_create_metric Gauge "inference_active_requests"
      "Currently active inference requests" None None reg2 in
  let '(r4, reg4) :=
    get_or_create_metric Gauge "model_loaded"
      "Whether model is loaded (1=yes 0=no)" (Some ["model"]) None reg3 in
  (a ← r1; b ← r2; c ← r3; d ← r4; Return [a; b; c; d], reg4).
End Registry.

(** ** The load-test script, [scripts/load_test.py] *)

(** One entry of [results]. *)
Record load_result (F : Type) : Type := mk_load_result {
  lr_status : Z;
  lr_duration : F;
  lr_ok : bool;
  lr_error : option string;
}.
Arguments mk_load_result {F} lr_status lr_duration lr_ok lr_error.
Arguments lr_status {F} l.
Arguments lr_duration {F} l.
Arguments lr_ok {F} l.
Arguments lr_error {F} l.

(** How [client.post] ends: with a response, or with an exception (a
    refused connection, the 5 s timeout). *)
Inductive post_outcome : Type :=
  | Responded (status : Z)
  | Failed (message : string).

(** The exception the report can raise. *)
Inductive script_exn : Type := ZeroDivisionError.

(** What the report prints up to the latency statistics. *)
Record load_report (F : Type) : Type := mk_load_report {
  rp_total : nat;
  rp_success : nat;
  rp_percent : Q;
  rp_failures : Z;
  rp_latencies : list F;
  rp_shows_latency : bool;
}.
Arguments mk_load_report {F} rp_total rp_success rp_percent rp_failures
  rp_latencies rp_shows_latency.
Arguments rp_total {F} l.
Arguments rp_success {F} l.
Arguments rp_percent {F} l.
Arguments rp_failures {F} l.
Arguments rp_latencies {F} l.
Arguments rp_shows_latency {F} l.

Section LoadTest.
Context {F : Type} `{FloatOps F}.

(** [send_request]: whatever happens, one entry is appended; [start] and
    [finish] are the readings of [time.time()]. *)
Definition send_request (outcome : post_outcome) (start finish : F)
  (results : list (load_result F)) : list (load_result F) :=
  match outcome with
  | Responded status =>
      results ++ [mk_load_result status (fsub finish start)
                    (status =? 200)%Z None]
  | Failed message =>
      results ++ [mk_load_result 0 (fsub finish start) false (Some message)]
  end.

(** The requests of a run, each with its outcome and its two clock
    readings, in the order in which they complete. *)
Definition send_all (sent : list (post_outcome * F * F))
  : list (load_result F) :=
  foldl (fun results '(outcome, start, finish) =>
           send_request outcome start finish results) [] sent.

(** Whether a request was answered with status 200. *)
Definition answered_200 (sent : post_outcome * F * F) : bool :=
  match sent with
  | (Responded status, _, _) => (status =? 200)%Z
  | (Failed _, _, _) => false
  end.

(** The report of [run_load_test], lines 54-62: the counts, the success
    percentage [100*success/total] (its exact value; Python prints the
    nearest float with one decimal), the failures, and whether the latency
    statistics are printed ([if latencies:]). *)
Definition report (results : list (load_result F))
  : script_exn + load_report F :=
  let total := length results in
  let success :=
    foldr Nat.add 0%nat (map (fun _ => 1%nat) (List.filter lr_ok results)) in
  let latencies := map lr_duration (List.filter lr_ok results) in
  if (total =? 0)%nat then inl ZeroDivisionError
  else inr (mk_load_report total success
              (inject_Z (100 * Z.of_nat success) / inject_Z (Z.of_nat total))%Q
              (Z.of_nat total - Z.of_nat success)
              latencies
              (match latencies with [] => false | _ => true end)).
End LoadTest.

(** ** The decode step and the declared shape, as the specification words
    them *)

(** The decode step of the handler applied to a named tensor. *)
Definition decode {A F : Type} `{Float32Cast A F} (tensor : InferenceInput A)
  : result (ndarray F) :=
  decode_data (data tensor).

(** The product of the declared [shape]. *)
Definition declared_count (sh : list Z) : Z := foldr Z.mul 1 sh.

(** "A positive multiple of the expected feature count". *)
Definition positive_multiple (count k : nat) : bool :=
  (0 <? count)%nat && (count mod k =? 0)%nat.

(** The datatypes of the inference protocol that name numbers. *)
Definition NUMERIC_DATATYPES : list string :=
  ["UINT8"; "UINT16"; "UINT32"; "UINT64"; "INT8"; "INT16"; "INT32"; "INT64";
   "FP16"; "FP32"; "FP64"].

Definition numeric_datatype (dt : string) : bool :=
  bool_decide (dt ∈ NUMERIC_DATATYPES).

(** Malformed input, as the specification describes a tensor the decode
    step has to refuse: the flattened element count is not a positive
    multiple of the feature count; or the declared [shape], having no
    wildcard dimension, has another product than the element count; or a
    numeric [datatype] is declared and some element is not a number.
    [numeric] tells which JSON scalars are numbers. *)
Definition malformed {A : Type} (numeric : A -> bool) (t : InferenceInput A)
  : Prop :=
  positive_multiple (element_count (data t)) N_FEATURES = false \/
  (Forall (fun d => 0 <= d) (shape t) /\
   declared_count (shape t) <> Z.of_nat (element_count (data t))) \/
  (numeric_datatype (datatype t) = true /\
   Exists (fun a => numeric a = false) (leaves (Seq (data t)))).


(** "First-occurrence argmax": [i] indexes an entry that no entry exceeds
    and that every earlier entry stays strictly below. *)
Definition first_max {F : Type} `{FloatOps F} (row : list F) (i : nat)
  : Prop :=
  exists m, row !! i = Some m /\
    (forall j y, row !! j = Some y -> fle y m = true) /\
    (forall j y, (j < i)%nat -> row !! j = Some y -> fle m y = false).

(** NumPy's convention when a row holds a NaN: the first NaN wins. *)
Definition first_nan {F : Type} `{FloatOps F} (row : list F) (i : nat)
  : Prop :=
  exists m, row !! i = Some m /\ fisnan m = true /\
    (forall j y, (j < i)%nat -> row !! j = Some y -> fisnan y = false).

(** A finite float of magnitude at most [bound]. *)
Definition within {F : Type} `{FloatValue F} (bound : Q) (a : F) : Prop :=
  exists x, fval a = Some x /\ (Qabs x <= bound)%Q.

(** Every finite [float32] lies within [FLOAT32_RANGE]; the entries
    [np.random.randn] draws lie well within [WEIGHT_RANGE]. *)
Definition FLOAT32_RANGE : Q := 2 ^ 128.
Definition WEIGHT_RANGE : Q := 2 ^ 64.

(** "Subtracting each row's maximum logit before exponentiation and
    dividing by the row sum". *)
Definition row_maximum {F : Type} `{FloatOps F} (row : list F) (m : F)
  : Prop :=
  m ∈ row /\ Forall (fun x => fle x m = true) row.

Definition stable_softmax {F : Type} `{FloatOps F} (logits probs : list F)
  : Prop :=
  exists m, row_maximum logits m /\
    probs = map (fun x => fdiv (fexp (fsub x m))
                            (np_sum (map (fun y => fexp (fsub y m)) logits)))
              logits.

(** "Sums to 1.0 within 1e-3": the entries are finite and their sum is
    within a thousandth of 1, both as the sum of their values and as the
    float that adding them up yields. *)
Definition sums_to_one {F : Type} `{FloatOps F} `{FloatValue F} (row : list F) : Prop :=
  exists (vs : list Q) (s : Q),
    Forall2 (fun a v => fval a = Some v) row vs /\
    (Qabs (foldr Qplus 0 vs - 1) <= 1 # 1000)%Q /\
    fval (np_sum row) = Some s /\
    (Qabs (s - 1) <= 1 # 1000)%Q.

(** ** A small instance to run the model on

    Exact rationals stand in for the floats (no rounding, no NaN), with a
    power of two standing in for [exp]; a JSON scalar is a number or an
    object, which NumPy cannot convert. *)
Inductive scalar : Type :=
  | Num (q : Q)
  | Obj.

#[global] Instance Q_ops : FloatOps Q := {|
  f_zero := 0%Q;
  fadd := Qplus;
  fsub := Qminus;
  fmul := Qmult;
  fdiv := Qdiv;
  fexp := fun x => Qpower 2 (Qfloor x);
  fle := Qle_bool;
  fisnan := fun _ => false;
|}.

#[global] Instance scalar_cast : Float32Cast scalar Q := {|
  as_float32 := fun a =>
    match a with
    | Num q => Return q
    | Obj => Raise TypeError
    end;
  NPY_MAXDIMS := 32;
|}.

Definition accept_all : metric_class -> string -> list string -> kwargs -> bool :=
  fun _ _ _ _ => true.

Definition empty_registry : CollectorRegistry := mk_registry ∅ 0.

(** A registry in which somebody registered a gauge named
    [requests_total]. *)
Definition clashing_registry : CollectorRegistry :=
  (get_or_create_metric accept_all Gauge "requests_total" "Requests" None None
     empty_registry).2.

(** The registry once the module has been imported. *)
Definition imported_registry : CollectorRegistry :=
  (module_metrics accept_all empty_registry).2.

Definition iris_row : list (any scalar) :=
  [Atom (Num 5.1); Atom (Num 3.5); Atom (Num 1.4); Atom (Num 0.2)]%Q.

Definition sample_weights (i j : nat) : Q :=
  (inject_Z (Z.of_nat i) - inject_Z (Z.of_nat j))%Q.

(** A freshly started process: the metrics exist and hold nothing, the
    model has been loaded. *)
Definition started : Server Q :=
  load sample_weights
    (mk_server (mk_model false (fun _ _ => 0%Q))
       (Some ∅) (Some ∅) (Some 0) (Some ∅)).

Definition not_started : Server Q :=
  mk_server (mk_model false (fun _ _ => 0%Q)) (Some ∅) (Some ∅) (Some 0) (Some ∅).

Definition single_request (sh : list Z) : InferenceRequest scalar :=
  mk_request (Some "test-001") [mk_input "input" sh "FP32" iris_row].

(** Three values where four are expected. *)
Definition short_request : InferenceRequest scalar :=
  mk_request None
    [mk_input "input" [1; 3] "FP32"
       [Atom (Num 5.1); Atom (Num 3.5); Atom (Num 1.4)]%Q].

(** [{"inputs": []}] *)
Definition empty_request : InferenceRequest scalar := mk_request None [].

(** The batch of three rows of the test suite. *)
Definition batch_request : InferenceRequest scalar :=
  mk_request None
    [mk_input "input" [3; 4] "FP32"
       [Seq [Atom (Num 5.1); Atom (Num 3.5); Atom (Num 1.4); Atom (Num 0.2)];
        Seq [Atom (Num 6.7); Atom (Num 3.1); Atom (Num 4.7); Atom (Num 1.5)];
        Seq [Atom (Num 6.3); Atom (Num 3.3); Atom (Num 6.0); Atom (Num 2.5)]]%Q].

Definition iris_array : ndarray Q :=
  mk_ndarray [1%nat; 4%nat] [5.1; 3.5; 1.4; 0.2]%Q.

(** The rows of [batch_request], as JSON scalars and as numbers. *)
Definition batch_values : list (list Q) :=
  [[5.1; 3.5; 1.4; 0.2]; [6.7; 3.1; 4.7; 1.5]; [6.3; 3.3; 6.0; 2.5]]%Q.

Definition batch_scalars : list (list scalar) := map (map Num) batch_values.

(** What the model computes on them. *)
Definition iris_prediction : prediction Q :=
  Eval vm_compute in
    match predict (model started) iris_array with
    | Return p => p
    | Raise _ => mk_prediction [] [] []
    end.

(** A short run: probes, three requests (the second one malformed) and a
    reload of the weights. *)
Definition interleaved_calls : list (call (A:=scalar) (F:=Q)) :=
  [Health; Infer "iris-classifier" batch_request 0%Q 1%Q; Ready;
   Infer "iris-classifier" short_request 1%Q 2%Q; MetricsRoute;
   Load (fun _ _ => 1%Q); ModelMetadata "iris-classifier";
   Infer "iris-classifier" (single_request [1; 4]) 2%Q 3%Q].

Definition single_response : InferenceResponse Q :=
  Eval vm_compute in
    match (infer "iris-classifier" (single_request [1; 4]) 0%Q 1%Q started).1 with
    | inr resp => resp
    | inl _ => mk_response None "" "" []
    end.

Definition batch_response : InferenceResponse Q :=
  Eval vm_compute in
    match (infer "iris-classifier" batch_request 0%Q 1%Q started).1 with
    | inr resp => resp
    | inl _ => mk_response None "" "" []
    end.

(** ** An instance with infinities and NaN

    Floats with the special values of IEEE 754.  Finite results are exact
    rationals (the instance rounds nothing), a power of two stands in for
    [exp], and a result whose magnitude reaches [2 ^ 1024] overflows to an
    infinity, as does a number of magnitude [2 ^ 128] when it is cast to
    [float32]. *)
Inductive ieee_float : Type :=
  | FNum (q : Q)
  | FInf (negative : bool)
  | FNaN.

Definition is_negative (q : Q) : bool := negb (Qle_bool 0 q).

Definition is_zero (q : Q) : bool := Qeq_bool q 0.

(** The float for the exact result [q] in a format that overflows at
    [bound]. *)
Definition overflow_at (bound q : Q) : ieee_float :=
  if Qle_bool bound (Qabs q) then FInf (is_negative q) else FNum q.

Definition FLOAT64_OVERFLOW : Q := 2 ^ 1024.
Definition FLOAT32_OVERFLOW : Q := 2 ^ 128.

Definition ieee_add (a b : ieee_float) : ieee_float :=
  match a, b with
  | FNaN, _ | _, FNaN => FNaN
  | FInf s, FInf t => if Bool.eqb s t then FInf s else FNaN
  | FInf s, FNum _ => FInf s
  | FNum _, FInf t => FInf t
  | FNum x, FNum y => overflow_at FLOAT64_OVERFLOW (x + y)
  end.

Definition ieee_opp (a : ieee_float) : ieee_float :=
  match a with
  | FNum x => FNum (- x)
  | FInf s => FInf (negb s)
  | FNaN => FNaN
  end.

Definition ieee_mul (a b : ieee_float) : ieee_float :=
  match a, b with
  | FNaN, _ | _, FNaN => FNaN
  | FInf s, FInf t => FInf (xorb s t)
  | FInf s, FNum y =>
      if is_zero y then FNaN else FInf (xorb s (is_negative y))
  | FNum x, FInf t =>
      if is_zero x then FNaN else FInf (xorb (is_negative x) t)
  | FNum x, FNum y => overflow_at FLOAT64_OVERFLOW (x * y)
  end.

Definition ieee_div (a b : ieee_float) : ieee_float :=
  match a, b with
  | FNaN, _ | _, FNaN => FNaN
  | FInf _, FInf _ => FNaN
  | FInf s, FNum y => FInf (xorb s (is_negative y))
  | FNum _, FInf _ => FNum 0
  | FNum x, FNum y =>
      if is_zero y then (if is_zero x then FNaN else FInf (is_negative x))
      else overflow_at FLOAT64_OVERFLOW (x / y)
  end.

Definition ieee_exp (a : ieee_float) : ieee_float :=
  match a with
  | FNaN => FNaN
  | FInf true => FNum 0
  | FInf false => FInf false
  | FNum x => overflow_at FLOAT64_OVERFLOW (Qpower 2 (Qfloor x))
  end.

Definition ieee_le (a b : ieee_float) : bool :=
  match a, b with
  | FNaN, _ | _, FNaN => false
  | FInf s, FInf t => implb t s
  | FInf s, FNum _ => s
  | FNum _, FInf t => negb t
  | FNum x, FNum y => Qle_bool x y
  end.

#[global] Instance ieee_ops : FloatOps ieee_float | 10 := {|
  f_zero := FNum 0;
  fadd := ieee_add;
  fsub := fun a b => ieee_add a (ieee_opp b);
  fmul := ieee_mul;
  fdiv := ieee_div;
  fexp := ieee_exp;
  fle := ieee_le;
  fisnan := fun a => match a with FNaN => true | _ => false end;
|}.

#[global] Instance ieee_value : FloatValue ieee_float | 10 := {|
  fval := fun a => match a with FNum q => Some q | _ => None end;
|}.

(** The scalars of a JSON document that NumPy has a conversion for, and
    an object, for which it has none. *)
Inductive json : Type :=
  | JNumber (q : Q)
  | JBool (b : bool)
  | JNull
  | JObject.

(** Whether a JSON scalar is a number. *)
Definition json_numeric (a : json) : bool :=
  match a with
  | JNumber _ => true
  | _ => false
  end.

(** NumPy casts [True] to 1.0, [False] to 0.0 and [None] to NaN; a number
    too large for [float32] becomes an infinity. *)
#[global] Instance json_cast : Float32Cast json ieee_float | 10 := {|
  as_float32 := fun a =>
    match a with
    | JNumber q => Return (overflow_at FLOAT32_OVERFLOW q)
    | JBool b => Return (FNum (if b then 1 else 0))
    | JNull => Return FNaN
    | JObject => Raise TypeError
    end;
  NPY_MAXDIMS := 32;
|}.

Definition ieee_weights (i j : nat) : ieee_float :=
  FNum (inject_Z (Z.of_nat i) - inject_Z (Z.of_nat j) + (1 # 2)).

(** A started process that computes with these floats. *)
Definition ieee_started : Server ieee_float :=
  load ieee_weights
    (mk_server (mk_model false (fun _ _ => FNum 0))
       (Some ∅) (Some ∅) (Some 0) (Some ∅)).

Definition json_request (sh : list Z) (dt : string) (d : list (any json))
  : InferenceRequest json :=
  mk_request None [mk_input "input" sh dt d].

(** [[true, 3.5, 1.4, 0.2]] *)
Definition boolean_row : list (any json) :=
  [Atom (JBool true); Atom (JNumber 3.5); Atom (JNumber 1.4);
   Atom (JNumber 0.2)]%Q.

(** [[null, 3.5, 1.4, 0.2]] *)
Definition null_row : list (any json) :=
  [Atom JNull; Atom (JNumber 3.5); Atom (JNumber 1.4); Atom (JNumber 0.2)]%Q.

(** [[1e39, 3.5, 1.4, 0.2]] *)
Definition huge_row : list (any json) :=
  [Atom (JNumber (inject_Z (10 ^ 39))); Atom (JNumber 3.5);
   Atom (JNumber 1.4); Atom (JNumber 0.2)]%Q.

(** [[5.1, 3.5, 1.4, 0.2]] *)
Definition json_iris_row : list (any json) :=
  [Atom (JNumber 5.1); Atom (JNumber 3.5); Atom (JNumber 1.4);
   Atom (JNumber 0.2)]%Q.

Definition ieee_iris_array : ndarray ieee_float :=
  mk_ndarray [1%nat; 4%nat] [FNum 5.1; FNum 3.5; FNum 1.4; FNum 0.2]%Q.

Definition boolean_response : InferenceResponse ieee_float :=
  Eval vm_compute in
    match (infer "iris-classifier" (json_request [1; 4] "FP32" boolean_row)
             (FNum 0) (FNum 1) ieee_started).1 with
    | inr resp => resp
    | inl _ => mk_response None "" "" []
    end.

(** Structural induction on payloads. *)
Fixpoint any_ind {A} (P : any A -> Prop)
  (Hatom : forall a, P (Atom a))
  (Hseq : forall l, Forall P l -> P (Seq l)) (x : any A) : P x :=
  match x with
  | Atom a => Hatom a
  | Seq l =>
      Hseq l ((fix go (l : list (any A)) : Forall P l :=
                 match l with
                 | [] => @List.Forall_nil _ P
                 | y :: l' =>
                     @List.Forall_cons _ P y l' (any_ind P Hatom Hseq y) (go l')
                 end) l)
  end.

(** What a prediction for a batch of [n] rows looks like: [n] rows of
    [N_CLASSES] probabilities, and for each row the label at its [argmax]
    and its maximum. *)
Definition prediction_wf {F : Type} `{FloatOps F} (n : nat) (p : prediction F)
  : Prop :=
  length (probabilities p) = n /\
  Forall (fun r => length r = N_CLASSES) (probabilities p) /\
  Forall2 (fun row c => exists i, argmax row = Return i /\ (i < N_CLASSES)%nat /\
                                  CLASSES !! i = Some c)
    (probabilities p) (predicted_class p) /\
  Forall2 (fun row m => np_max row = Return m) (probabilities p) (confidence p).

(** * Properties *)

(** ** Fallible maps *)

Lemma bind_Return {T U} (m : result T) (f : T -> result U) (y : U) :
  m ≫= f = Return y -> exists x, m = Return x /\ f x = Return y.
Proof. destruct m as [x|e]; simpl; [eauto | discriminate]. Qed.

Lemma mapM_Return {T U} (f : T -> result U) (l : list T) (k : list U) :
  mapM f l = Return k -> Forall2 (fun x y => f x = Return y) l k.
Proof.
  revert k. induction l as [|x l IH]; intros k Hk; simpl in Hk.
  - injection Hk as <-. constructor.
  - apply bind_Return in Hk as (y & Hy & Hk).
    apply bind_Return in Hk as (k' & Hk' & Hk).
    injection Hk as <-. constructor; auto.
Qed.

Lemma mapM_total {T U} (f : T -> result U) (l : list T) :
  Forall (fun x => exists y, f x = Return y) l ->
  exists k, mapM f l = Return k.
Proof.
  induction 1 as [|x l [y Hy] _ [k Hk]]; simpl.
  - by eexists.
  - rewrite Hy; simpl. rewrite Hk; simpl. by eexists.
Qed.


(** ** Shape discovery *)

Lemma seq_shape_Some (ss : list (option (list nat))) (sh : list nat) :
  seq_shape ss = Some sh ->
  (ss = [] /\ sh = [0%nat]) \/
  (exists s, ss <> [] /\ Forall (fun o => o = Some s) ss /\
             sh = length ss :: s).
Proof.
  destruct ss as [|[s|] rest]; simpl; intros Hs.
  - left. by injection Hs as <-.
  - right. destruct (forallb _ rest) eqn:Hall; [|discriminate].
    injection Hs as <-. exists s. split; [done|]. split; [|done].
    constructor; [done|]. apply Forall_forall. intros o Ho.
    rewrite forallb_forall in Hall.
    apply list_elem_of_In, Hall, bool_decide_eq_true in Ho. done.
  - discriminate.
Qed.

Lemma length_concat_const {T} (ls : list (list T)) (n : nat) :
  Forall (fun l => length l = n) ls -> length (concat ls) = (length ls * n)%nat.
Proof.
  induction 1 as [|l ls Hl _ IH]; simpl; [done|].
  rewrite length_app, Hl, IH. done.
Qed.


(** A payload with a shape has as many leaves as the shape says. *)
Lemma discover_shape_count {A} (x : any A) (sh : list nat) :
  discover_shape x = Some sh -> length (leaves x) = prod_shape sh.
Proof.
  revert sh. induction x as [a|l IH] using any_ind; intros sh Hsh.
  - injection Hsh as <-. done.
  - simpl in Hsh. apply seq_shape_Some in Hsh as [[Hnil ->]|(s & _ & Hall & ->)].
    + apply fmap_nil_inv in Hnil as ->. done.
    + simpl. rewrite length_map.
      rewrite (length_concat_const _ (prod_shape s)), length_map; [done|].
      apply Forall_fmap. apply Forall_fmap in Hall.
      rewrite Forall_forall in *. intros y Hy. simpl. apply IH; [done|].
      by apply Hall.
Qed.

Lemma discover_seq_shape {A} (d : list (any A)) (sh : list nat) :
  discover_shape (Seq d) = Some sh ->
  exists s, sh = length d :: s /\ (d = [] -> s = []).
Proof.
  simpl. intros Hs. apply seq_shape_Some in Hs as [[Hnil ->]|(s & Hne & _ & ->)].
  - apply fmap_nil_inv in Hnil as ->. by exists [].
  - rewrite length_map. exists s. split; [done|]. by intros ->.
Qed.

Section DecoderFacts.
Context {A F : Type} `{Float32Cast A F}.

Lemma np_array_Return (d : list (any A)) (raw : ndarray F) :
  np_array d = Return raw ->
  discover_shape (Seq d) = Some (nd_shape raw) /\
  (length (nd_shape raw) <= NPY_MAXDIMS)%nat /\
  Forall2 (fun a x => as_float32 a = Return x) (leaves (Seq d)) (nd_flat raw).
Proof.
  unfold np_array. destruct (discover_shape (Seq d)) as [sh|]; [|discriminate].
  destruct (Nat.ltb_spec NPY_MAXDIMS (length sh)); [discriminate|].
  intros Hm. apply bind_Return in Hm as (xs & Hxs & Hm).
  injection Hm as <-. simpl. split; [done|]. split; [lia|].
  by apply mapM_Return.
Qed.

Lemma np_array_count (d : list (any A)) (raw : ndarray F) :
  np_array d = Return raw ->
  length (nd_flat raw) = element_count d /\
  prod_shape (nd_shape raw) = element_count d.
Proof.
  intros (Hsh & _ & Hxs)%np_array_Return.
  apply Forall2_length in Hxs. unfold element_count.
  apply discover_shape_count in Hsh. split; congruence.
Qed.

(** What the decode step returns when it returns: the shape NumPy
    discovers in the nesting of [data], a flat row being promoted to a
    batch of one row. *)
Lemma decode_data_Return (d : list (any A)) (raw : ndarray F) :
  decode_data d = Return raw ->
  exists sh, discover_shape (Seq d) = Some sh /\
    nd_shape raw =
      match sh with
      | [n] => [1%nat; n]
      | _ => sh
      end /\
    length (nd_flat raw) = element_count d /\
    prod_shape (nd_shape raw) = element_count d.
Proof.
  unfold decode_data. intros Hd.
  apply bind_Return in Hd as (r0 & Hr0 & Hd).
  pose proof (np_array_count _ _ Hr0) as [Hlen Hprod].
  apply np_array_Return in Hr0 as (Hsh & _ & _).
  exists (nd_shape r0). split; [done|].
  unfold ndim in Hd. destruct (nd_shape r0) as [|n [|m sh']] eqn:Hshape;
    simpl in Hd; injection Hd as <-; simpl; rewrite ?Hshape; try done.
  simpl in Hprod. rewrite Hlen. split; [f_equal; f_equal; lia|].
  split; [done|]. simpl. lia.
Qed.

End DecoderFacts.

(** ** The classifier *)

Lemma Forall2_compose {T U V} (R : T -> U -> Prop) (S : U -> V -> Prop)
  (l : list T) (k : list U) (m : list V) :
  Forall2 R l k -> Forall2 S k m ->
  Forall2 (fun x z => exists y, R x y /\ S y z) l m.
Proof.
  intros HR. revert m. induction HR; intros m HS; inversion HS; subst;
    constructor; eauto.
Qed.

Section ClassifierFacts.
Context {F : Type} `{FloatOps F}.

Lemma softmax_row_length (row p : list F) :
  softmax_row row = Return p -> length p = length row.
Proof.
  unfold softmax_row. intros (m & _ & Hp)%bind_Return.
  injection Hp as <-. by rewrite !length_map.
Qed.

Lemma softmax_row_total (row : list F) :
  row <> [] -> exists p, softmax_row row = Return p.
Proof. destruct row; [done|]. intros _. unfold softmax_row. simpl. eauto. Qed.

Lemma argmax_loop_bound (l : list F) (mp : F) (max_ind i : nat) :
  (max_ind < i)%nat -> (argmax_loop mp max_ind i l < i + length l)%nat.
Proof.
  revert mp max_ind i. induction l as [|x l IH]; intros mp max_ind i Hlt;
    simpl; [lia|].
  destruct (fle x mp).
  - specialize (IH mp max_ind (S i)). lia.
  - destruct (fisnan x); [lia|]. specialize (IH x i (S i)). lia.
Qed.

Lemma argmax_bound (row : list F) (i : nat) :
  argmax row = Return i -> (i < length row)%nat.
Proof.
  destruct row as [|x l]; [discriminate|]. simpl. intros [= <-].
  destruct (fisnan x); [lia|].
  pose proof (argmax_loop_bound l x 0 1). lia.
Qed.

Lemma argmax_total (row : list F) :
  row <> [] -> exists i, argmax row = Return i.
Proof. destruct row; [done|]. simpl. eauto. Qed.

Lemma np_max_total (row : list F) :
  row <> [] -> exists m, np_max row = Return m.
Proof. destruct row; [done|]. simpl. eauto. Qed.

Lemma class_at_Return (i : nat) (c : string) :
  class_at i = Return c -> CLASSES !! i = Some c.
Proof. unfold class_at. destruct (CLASSES !! i); [congruence|discriminate]. Qed.

Lemma class_at_total (i : nat) :
  (i < N_CLASSES)%nat -> exists c, class_at i = Return c.
Proof.
  intros Hi. unfold class_at.
  destruct i as [|[|[|i]]]; simpl; eauto. unfold N_CLASSES in Hi. lia.
Qed.

Lemma matmul_rows (xs : list (list F)) (w : nat -> nat -> F) :
  length (matmul xs w) = length xs /\
  Forall (fun r => length r = N_CLASSES) (matmul xs w).
Proof.
  unfold matmul. split; [by rewrite length_map|].
  apply Forall_fmap, Forall_forall. intros x _. reflexivity.
Qed.

Lemma length_N_CLASSES_nonempty (r : list F) :
  length r = N_CLASSES -> r <> [].
Proof. by destruct r. Qed.

(** The steps of [predict] after the matrix product, on logits of the
    right width. *)
Lemma predict_steps (logits probs : list (list F)) (idx : list nat)
  (classes : list string) (conf : list F) :
  Forall (fun r => length r = N_CLASSES) logits ->
  mapM softmax_row logits = Return probs ->
  mapM argmax probs = Return idx ->
  mapM class_at idx = Return classes ->
  mapM np_max probs = Return conf ->
  prediction_wf (length logits) (mk_prediction probs classes conf).
Proof.
  intros Hlog Hp%mapM_Return Hi%mapM_Return Hc%mapM_Return Hm%mapM_Return.
  assert (Hrows : Forall (fun r => length r = N_CLASSES) probs).
  { clear -Hlog Hp. induction Hp as [|x y l k Hxy _ IH]; [constructor|].
    inversion Hlog; subst. constructor; [|auto].
    apply softmax_row_length in Hxy. congruence. }
  unfold prediction_wf; simpl. split; [by apply Forall2_length in Hp|].
  split; [done|]. split; [|done].
  pose proof (Forall2_compose _ _ _ _ _ Hi Hc) as Hic.
  clear -Hic Hrows. induction Hic as [|row c l k (i & Ha & Hc) _ IH];
    [constructor|].
  inversion Hrows; subst. constructor; [|auto].
  exists i. split; [done|]. split; [|by apply class_at_Return].
  apply argmax_bound in Ha. lia.
Qed.

(** [predict] returns on every two-dimensional input with 4 columns. *)
Lemma predict_2d (self : IrisClassifier F) (inputs : ndarray F) (n : nat) :
  nd_shape inputs = [n; N_FEATURES] ->
  exists p, predict self inputs = Return p /\ prediction_wf n p.
Proof.
  intros Hsh. unfold predict. rewrite Hsh. simpl.
  set (logits := matmul _ _).
  destruct (matmul_rows (rows n N_FEATURES (nd_flat inputs)) (weights self))
    as [Hlen Hlog]. fold logits in Hlen, Hlog.
  assert (Hn : length logits = n).
  { rewrite Hlen. unfold rows. by rewrite length_reshape, length_replicate. }
  destruct (mapM_total softmax_row logits) as [probs Hp].
  { eapply Forall_impl; [exact Hlog|]. intros r Hr.
    by apply softmax_row_total, length_N_CLASSES_nonempty. }
  assert (Hrows : Forall (fun r => length r = N_CLASSES) probs).
  { pose proof (mapM_Return _ _ _ Hp) as HF. clear -Hlog HF.
    induction HF as [|x y l k Hxy _ IH]; [constructor|].
    inversion Hlog; subst. constructor; [|auto].
    apply softmax_row_length in Hxy. congruence. }
  destruct (mapM_total argmax probs) as [idx Hi].
  { eapply Forall_impl; [exact Hrows|]. intros r Hr.
    by apply argmax_total, length_N_CLASSES_nonempty. }
  destruct (mapM_total class_at idx) as [classes Hc].
  { pose proof (mapM_Return _ _ _ Hi) as HF. clear -Hrows HF.
    induction HF as [|x y l k Hxy _ IH]; [constructor|].
    inversion Hrows; subst. constructor; [|auto].
    apply class_at_total. apply argmax_bound in Hxy. lia. }
  destruct (mapM_total np_max probs) as [conf Hm].
  { eapply Forall_impl; [exact Hrows|]. intros r Hr.
    by apply np_max_total, length_N_CLASSES_nonempty. }
  rewrite Hp; simpl. rewrite Hi; simpl. rewrite Hc; simpl.
  rewrite Hm; simpl. eexists. split; [done|].
  rewrite <- Hn. by apply (predict_steps logits probs idx classes conf).
Qed.

(** Conversely, [predict] returns only on such an input, or on an array
    of three or more dimensions whose first axis is empty. *)
Lemma predict_Return (self : IrisClassifier F) (inputs : ndarray F)
  (p : prediction F) :
  predict self inputs = Return p ->
  (exists n, nd_shape inputs = [n; N_FEATURES] /\ prediction_wf n p) \/
  (exists d1 d2 rest, nd_shape inputs = 0%nat :: d1 :: d2 :: rest /\
                      p = mk_prediction [] [] []).
Proof.
  intros Hp. destruct (nd_shape inputs) as [|d0 [|d1 [|d2 rest]]] eqn:Hsh.
  - unfold predict in Hp. by rewrite Hsh in Hp.
  - unfold predict in Hp. by rewrite Hsh in Hp.
  - left. destruct (Nat.eqb_spec d1 N_FEATURES) as [->|Hne].
    + destruct (predict_2d self inputs d0 Hsh) as (p' & Hp' & Hwf).
      exists d0. split; [done|]. congruence.
    + unfold predict in Hp. rewrite Hsh in Hp.
      apply Nat.eqb_neq in Hne. by rewrite Hne in Hp.
  - right. unfold predict in Hp. rewrite Hsh in Hp.
    case_bool_decide; [|discriminate].
    destruct (d1 =? 0)%nat; [discriminate|].
    destruct (Nat.eqb_spec d0 0) as [->|]; [|discriminate].
    injection Hp as <-. eauto.
Qed.
End ClassifierFacts.

(** ** [argmax] picks the first maximum *)

Section ArgmaxFacts.
Context {F : Type} `{FloatOrder F}.

Lemma fle_refl (a : F) : fisnan a = false -> fle a a = true.
Proof. intros Ha. by destruct (fle_total a a Ha Ha). Qed.

(** The invariant of the scan: [mp] sits at [max_ind] in the prefix
    already read, nothing read exceeds it, and everything before it is
    strictly smaller. *)
Lemma argmax_loop_first_max (l pre : list F) (mp : F) (max_ind : nat) :
  Forall (fun x => fisnan x = false) (pre ++ l) ->
  pre !! max_ind = Some mp ->
  (forall j y, pre !! j = Some y -> fle y mp = true) ->
  (forall j y, (j < max_ind)%nat -> pre !! j = Some y -> fle mp y = false) ->
  first_max (pre ++ l) (argmax_loop mp max_ind (length pre) l).
Proof.
  revert pre mp max_ind.
  induction l as [|x l IH]; intros pre mp max_ind Hnan Hmp Hle Hlt; simpl.
  - rewrite app_nil_r. exists mp. auto.
  - assert (Hx : fisnan x = false).
    { rewrite Forall_app, Forall_cons in Hnan. tauto. }
    assert (Hmpn : fisnan mp = false).
    { rewrite Forall_app, Forall_forall in Hnan.
      apply Hnan. eapply list_elem_of_lookup_2, Hmp. }
    replace (pre ++ x :: l) with ((pre ++ [x]) ++ l) in *
      by (by rewrite <- app_assoc).
    replace (S (length pre)) with (length (pre ++ [x]))
      by (rewrite length_app; simpl; lia).
    destruct (fle x mp) eqn:Hxmp.
    + apply IH; [done| | |].
      * by apply lookup_app_l_Some.
      * intros j y Hj. apply lookup_app_Some in Hj as [Hj|[_ Hj]]; [eauto|].
        apply list_lookup_singleton_Some in Hj as [_ <-]. done.
      * intros j y Hjlt Hj. apply lookup_app_Some in Hj as [Hj|[Hge _]];
          [eauto|]. apply lookup_lt_Some in Hmp. lia.
    + rewrite Hx.
      assert (Hmpx : fle mp x = true).
      { destruct (fle_total mp x Hmpn Hx); [done|congruence]. }
      assert (Hix : (pre ++ [x]) !! length pre = Some x).
      { rewrite lookup_app_r by lia. by rewrite Nat.sub_diag. }
      apply IH; [done|done| |].
      * intros j y Hj. apply lookup_app_Some in Hj as [Hj|[_ Hj]].
        -- eapply fle_trans; [|exact Hmpx]. eauto.
        -- apply list_lookup_singleton_Some in Hj as [_ <-].
           by apply fle_refl.
      * intros j y Hjlt Hj. rewrite lookup_app_l in Hj by done.
        destruct (fle x y) eqn:Hxy; [|done].
        rewrite (fle_trans x y mp Hxy) in Hxmp; [done|eauto].
Qed.

Lemma argmax_first_max (row : list F) (i : nat) :
  Forall (fun x => fisnan x = false) row ->
  argmax row = Return i -> first_max row i.
Proof.
  destruct row as [|x l]; [discriminate|]. intros Hnan. simpl.
  assert (Hx : fisnan x = false) by (by inversion Hnan).
  rewrite Hx. intros [= <-].
  apply (argmax_loop_first_max l [x] x 0); [done|done| |].
  - intros [|j] y; simpl; [|done]. intros [= <-]. by apply fle_refl.
  - intros j y Hj. lia.
Qed.

Lemma argmax_loop_first_nan (l pre : list F) (mp : F) (max_ind : nat) :
  Forall (fun x => fisnan x = false) pre ->
  Exists (fun x => fisnan x = true) l ->
  first_nan (pre ++ l) (argmax_loop mp max_ind (length pre) l).
Proof.
  revert pre mp max_ind.
  induction l as [|x l IH]; intros pre mp max_ind Hpre Hex; simpl.
  - inversion Hex.
  - destruct (fisnan x) eqn:Hx.
    + rewrite (fle_nan_l x mp Hx). exists x.
      split; [by rewrite list_lookup_middle|]. split; [done|].
      intros j y Hj Hy. rewrite lookup_app_l in Hy by done.
      rewrite Forall_forall in Hpre. eapply Hpre, list_elem_of_lookup_2, Hy.
    + assert (Hl : Exists (fun x => fisnan x = true) l).
      { inversion Hex; subst; [congruence|done]. }
      assert (Hpre' : Forall (fun x => fisnan x = false) (pre ++ [x])).
      { apply Forall_app. split; [done|]. by constructor. }
      replace (pre ++ x :: l) with ((pre ++ [x]) ++ l)
        by (by rewrite <- app_assoc).
      replace (S (length pre)) with (length (pre ++ [x]))
        by (rewrite length_app; simpl; lia).
      destruct (fle x mp); by apply IH.
Qed.

Lemma argmax_first_nan (row : list F) (i : nat) :
  Exists (fun x => fisnan x = true) row ->
  argmax row = Return i -> first_nan row i.
Proof.
  destruct row as [|x l]; [discriminate|]. intros Hex. simpl.
  destruct (fisnan x) eqn:Hx; intros [= <-].
  - exists x. split; [done|]. split; [done|]. intros j y Hj. lia.
  - apply (argmax_loop_first_nan l [x] x 0).
    + by constructor.
    + inversion Hex; subst; [congruence|done].
Qed.
End ArgmaxFacts.

(** ** Metric bookkeeping *)

Section MetricFacts.
Context {F : Type}.
Implicit Types s : Server F.

Lemma active_inc_dec (v : option Z) :
  (fun x => x - 1) <$> ((fun x => x + 1) <$> v) = v.
Proof. destruct v as [x|]; simpl; [f_equal; lia | done]. Qed.

Lemma request_count_count_request (st st' : string) s :
  is_Some (REQUEST_COUNT s) ->
  request_count st (count_request st' s) =
    if decide (st = st') then S (request_count st s) else request_count st s.
Proof.
  intros [c Hc]. unfold request_count, count_request, counter_inc; simpl.
  rewrite Hc; simpl. destruct (decide (st = st')) as [->|Hne].
  - by rewrite lookup_insert_eq.
  - rewrite lookup_insert_ne; [done|]. congruence.
Qed.

Lemma latencies_observe_latency (d : F) s :
  is_Some (REQUEST_LATENCY s) ->
  latencies (observe_latency d s) = latencies s ++ [d].
Proof.
  intros [h Hh]. unfold latencies, observe_latency, histogram_observe; simpl.
  rewrite Hh; simpl. by rewrite lookup_insert_eq.
Qed.
End MetricFacts.

(** ** The handler *)

Section RouteFacts.
Context {A F : Type} `{FloatOps F} `{Float32Cast A F}.
Implicit Types (s : Server F) (request : InferenceRequest A).

Lemma shape_of_rows_wf (probs : list (list F)) :
  Forall (fun r => length r = N_CLASSES) probs ->
  shape_of_rows probs =
    Return (match probs with
            | [] => [0%nat]
            | _ => [length probs; N_CLASSES]
            end).
Proof.
  intros Hall. unfold shape_of_rows. destruct probs as [|r probs]; [done|].
  inversion Hall as [|? ? Hr Hrest]; subst. simpl. rewrite Hr.
  assert (Hfa : forallb (fun o => bool_decide (o = Some [N_CLASSES]))
                  (map (fun row : list F => Some [length row]) probs) = true).
  { apply forallb_forall. intros o Ho. apply in_map_iff in Ho as (r' & <- & Hr').
    apply bool_decide_eq_true. rewrite Forall_forall in Hrest.
    rewrite (Hrest r'); [done|]. by apply list_elem_of_In. }
  rewrite Hfa. by rewrite length_map.
Qed.

(** A decoded tensor that [predict] accepts is a batch of one or more
    rows of 4 features. *)
Lemma decode_predict_Return (d : list (any A)) (raw : ndarray F)
  (self : IrisClassifier F) (p : prediction F) :
  decode_data d = Return raw ->
  predict self raw = Return p ->
  exists n, (1 <= n)%nat /\ nd_shape raw = [n; N_FEATURES] /\
            prediction_wf n p /\
            element_count d = (n * N_FEATURES)%nat /\
            (discover_shape (Seq d) = Some [N_FEATURES] /\ n = 1%nat \/
             discover_shape (Seq d) = Some [n; N_FEATURES]).
Proof.
  intros (sh & Hsh & Hraw & _ & Hcount)%decode_data_Return Hp.
  pose proof (discover_seq_shape _ _ Hsh) as (s' & -> & Hnil).
  apply predict_Return in Hp as [(n & Hn & Hwf)|(d1 & d2 & rest & Hn & _)].
  - rewrite Hn in Hraw, Hcount. simpl in Hcount.
    destruct s' as [|m [|? ?]].
    + injection Hraw as -> Hm. exists 1%nat.
      split; [lia|]. split; [done|]. split; [done|].
      split; [symmetry; exact Hcount|]. left. by rewrite Hsh, Hm.
    + injection Hraw as -> <-. exists (length d).
      destruct d as [|x d]; [by specialize (Hnil eq_refl)|].
      split; [simpl; lia|]. split; [done|]. split; [done|].
      split; [symmetry; exact Hcount|]. by right.
    + discriminate.
  - rewrite Hn in Hraw. destruct s' as [|m [|? ?]]; [discriminate| |].
    + injection Hraw as Hd _. symmetry in Hd.
      apply length_zero_iff_nil in Hd. by specialize (Hnil Hd).
    + injection Hraw as Hd _. symmetry in Hd.
      apply length_zero_iff_nil in Hd. by specialize (Hnil Hd).
Qed.

(** The two ways through the [try] block. *)
Lemma infer_try_cases request (start now : F) s :
  (exists e, infer_try request start now s = (Raise e, s) /\
     (forall inp rest, inputs request = inp :: rest ->
        is_Return (raw ← decode_data (data inp); predict (model s) raw)
          = false)) \/
  (exists inp rest raw p n,
     inputs request = inp :: rest /\
     decode_data (data inp) = Return raw /\
     predict (model s) raw = Return p /\
     (1 <= n)%nat /\ nd_shape raw = [n; N_FEATURES] /\
     prediction_wf n p /\
     infer_try request start now s =
       (Return (success_response request n p),
        observe_latency (fsub now start) (count_request "success" s))).
Proof.
  unfold infer_try, first_input.
  destruct (inputs request) as [|inp rest]; simpl.
  { left. exists IndexError. split; [done|]. discriminate. }
  destruct (decode_data (data inp)) as [raw|e] eqn:Hraw; simpl.
  2:{ left. exists e. split; [done|]. intros ? ? [= <- <-]. by rewrite Hraw. }
  destruct (predict (model s) raw) as [p|e] eqn:Hp.
  2:{ left. exists e. split; [done|]. intros ? ? [= <- <-].
      rewrite Hraw. simpl. by rewrite Hp. }
  right.
  destruct (decode_predict_Return _ _ _ _ Hraw Hp)
    as (n & Hn & Hshape & Hwf & _).
  exists inp, rest, raw, p, n. repeat (split; [done|]).
  destruct Hwf as (Hlen & Hrows & Hcls & Hconf).
  rewrite (shape_of_rows_wf _ Hrows). simpl.
  destruct (probabilities p) as [|r probs] eqn:Hprobs.
  { simpl in Hlen. lia. }
  unfold success_response. rewrite Hprobs, <- Hlen.
  apply Forall2_length in Hcls. rewrite <- Hcls. done.
Qed.

(** What [infer] returns and leaves behind on a ready model. *)
Lemma infer_ready_cases (model_name : string) request (start now : F) s :
  loaded (model s) = true ->
  (exists e,
     infer model_name request start now s =
       (inl (mk_http 500 (StrOf e)),
        active_dec (count_request "error" (active_inc s))) /\
     (forall inp rest, inputs request = inp :: rest ->
        is_Return (raw ← decode_data (data inp); predict (model s) raw)
          = false)) \/
  (exists inp rest raw p n,
     inputs request = inp :: rest /\
     decode_data (data inp) = Return raw /\
     predict (model s) raw = Return p /\
     (1 <= n)%nat /\ nd_shape raw = [n; N_FEATURES] /\
     prediction_wf n p /\
     infer model_name request start now s =
       (inr (success_response request n p),
        active_dec (observe_latency (fsub now start)
                      (count_request "success" (active_inc s))))).
Proof.
  intros Hl. unfold infer. rewrite Hl. simpl.
  destruct (infer_try_cases request start now (active_inc s))
    as [(e & -> & Hno)|(inp & rest & raw & p & n & H1 & H2 & H3 & H4 & H5 & H6 & ->)].
  - left. exists e. split; [done|]. exact Hno.
  - right. exists inp, rest, raw, p, n. done.
Qed.
End RouteFacts.

(** * The claims of the specification *)




(** Other payloads the handler turns away: rows of unequal length, a JSON
    object among the numbers, one nesting level too many, and eight values
    in a flat list. *)
Example infer_ragged_rows :
  (infer "iris-classifier"
     (mk_request None
        [mk_input "input" [2; 4] "FP32"
           [Seq [Atom (Num 5.1); Atom (Num 3.5); Atom (Num 1.4); Atom (Num 0.2)];
            Seq [Atom (Num 6.7); Atom (Num 3.1)]]%Q])
     0%Q 1%Q started).1
  = inl (mk_http 500 (StrOf ValueError)).
Proof. reflexivity. Qed.

Example infer_object_element :
  (infer "iris-classifier"
     (mk_request None
        [mk_input "input" [1; 4] "FP32"
           [Atom (Num 5.1); Atom Obj; Atom (Num 1.4); Atom (Num 0.2)]%Q])
     0%Q 1%Q started).1
  = inl (mk_http 500 (StrOf TypeError)).
Proof. reflexivity. Qed.

Example infer_three_dimensions :
  (infer "iris-classifier"
     (mk_request None [mk_input "input" [1; 1; 4] "FP32" [Seq [Seq iris_row]]])
     0%Q 1%Q started).1
  = inl (mk_http 500 (StrOf TypeError)).
Proof. reflexivity. Qed.

Example infer_flat_eight :
  (infer "iris-classifier"
     (mk_request None [mk_input "input" [2; 4] "FP32" (iris_row ++ iris_row)])
     0%Q 1%Q started).1
  = inl (mk_http 500 (StrOf ValueError)).
Proof. reflexivity. Qed.

(** C2, as the specification states it, fails: a tensor that declares the
    shape [[7, 9]] and carries four numbers is decoded, and the request is
    answered with a prediction, although 7 * 9 is not 4. *)
Lemma decode_checks_declared_shape_counterexample :
  ~ (forall (t : InferenceInput scalar) (raw : ndarray Q),
       decode t = Return raw ->
       Z.of_nat (element_count (data t)) = declared_count (shape t)).
Proof.
  intros Hclaim.
  specialize (Hclaim (mk_input "input" [7; 9] "FP32" iris_row)
                (mk_ndarray [1%nat; 4%nat] [5.1; 3.5; 1.4; 0.2]%Q) eq_refl).
  discriminate Hclaim.
Qed.

(** The same request through the whole handler: status 200. *)
Example infer_accepts_wrong_declared_shape :
  exists resp, (infer "iris-classifier" (single_request [7; 9]) 0%Q 1%Q started).1
               = inr resp.
Proof. eexists. vm_compute. reflexivity. Qed.

(** C2, amended.  The decode step reads [data] only.  When it accepts a
    tensor, the array has the shape found in the nesting of [data] itself
    (a flat row becoming a batch of one row), the element count of [data]
    is the product of that shape, and any tensor with the same [data] is
    decoded to the same array whatever shape, datatype and name it
    declares. *)
Theorem decode_shape_from_data {A F : Type} `{Float32Cast A F}
  (t : InferenceInput A) (raw : ndarray F) :
  decode t = Return raw ->
  (exists sh, discover_shape (Seq (data t)) = Some sh /\
     nd_shape raw = match sh with
                    | [n] => [1%nat; n]
                    | _ => sh
                    end) /\
  element_count (data t) = prod_shape (nd_shape raw) /\
  element_count (data t) = length (nd_flat raw) /\
  (forall (nm : string) (sh : list Z) (dt : string),
     decode (mk_input nm sh dt (data t)) = Return raw).
Proof.
  unfold decode. intros Hd.
  destruct (decode_data_Return _ _ Hd) as (sh & Hsh & Hraw & Hlen & Hprod).
  split; [by exists sh|]. split; [done|]. split; [done|].
  intros nm sh' dt. exact Hd.
Qed.

Lemma decode_shape_from_data_witness :
  (exists sh, discover_shape (Seq iris_row) = Some sh /\
     nd_shape iris_array = match sh with
                           | [n] => [1%nat; n]
                           | _ => sh
                           end) /\
  element_count iris_row = prod_shape (nd_shape iris_array) /\
  element_count iris_row = length (nd_flat iris_array) /\
  (forall (nm : string) (sh : list Z) (dt : string),
     decode (mk_input nm sh dt iris_row) = Return iris_array).
Proof.
  apply (decode_shape_from_data (mk_input "input" [7; 9] "FP32" iris_row)
           iris_array).
  reflexivity.
Defined.

Section HandlerState.
Context {A F : Type} `{FloatOps F} `{Float32Cast A F}.
Implicit Types (s : Server F) (request : InferenceRequest A).

(** The state [infer] leaves behind: untouched when the model is not
    ready; otherwise the gauge is raised, one of the two bookkeeping
    paths runs, and the gauge is lowered. *)
Lemma infer_final_state (model_name : string) request (start now : F) s :
  (loaded (model s) = false /\
   (infer model_name request start now s).2 = s) \/
  (loaded (model s) = true /\
   exists mid,
     (infer model_name request start now s).2 = active_dec mid /\
     ((exists err, (infer model_name request start now s).1 = inl err /\
         mid = count_request "error" (active_inc s)) \/
      (exists resp, (infer model_name request start now s).1 = inr resp /\
         mid = observe_latency (fsub now start)
                 (count_request "success" (active_inc s))))).
Proof.
  destruct (loaded (model s)) eqn:Hl.
  - right. split; [done|].
    destruct (infer_ready_cases model_name request start now s Hl)
      as [(e & -> & _)|(? & ? & ? & p & n & _ & _ & _ & _ & _ & _ & ->)];
      simpl; eexists; (split; [done|]); eauto.
  - left. split; [done|]. unfold infer. by rewrite Hl.
Qed.

Lemma infer_model (model_name : string) request (start now : F) s :
  model (infer model_name request start now s).2 = model s.
Proof.
  destruct (infer_final_state model_name request start now s)
    as [[_ ->]|[_ (mid & -> & [(? & _ & ->)|(? & _ & ->)])]]; done.
Qed.
End HandlerState.

Section TraceFacts.
Context {F : Type}.

Lemma replay_snoc (ops : list (metric_op F)) (op : metric_op F) (s : Server F) :
  replay (ops ++ [op]) s = perform op (replay ops s).
Proof. unfold replay. by rewrite foldl_app. Qed.

(** Calls on the counter and on the histogram leave the gauge alone. *)
Lemma replay_keeps_gauge (ops : list (metric_op F)) (s : Server F) :
  Forall (fun op => on_active_gauge op = false) ops ->
  ACTIVE_REQUESTS (replay ops s) = ACTIVE_REQUESTS s.
Proof.
  intros Hops. revert s. induction Hops as [|op ops Hop _ IH]; intros s; [done|].
  change (replay (op :: ops) s) with (replay ops (perform op s)).
  rewrite IH. by destruct op.
Qed.

Lemma Forall_filter_not_gauge (ops : list (metric_op F)) :
  Forall (fun op => on_active_gauge op = false)
    (List.filter (fun op => negb (on_active_gauge op)) ops).
Proof.
  apply Forall_forall. intros op Hop%list_elem_of_In.
  apply filter_In in Hop as [_ Hop]. by destruct (on_active_gauge op).
Qed.
End TraceFacts.

Section TracedHandler.
Context {A F : Type} `{FloatOps F} `{Float32Cast A F}.

(** The traced handler is the handler: same answer, same final state, and
    the log replays to that state; its log is empty when the model is not
    ready, and otherwise, when the gauge exists, it starts with the
    increment, ends with the decrement and has no call on the gauge in
    between. *)
Lemma infer_traced_spec (model_name : string) (request : InferenceRequest A)
  (start now : F) (s : Server F) :
  (infer_traced model_name request start now s).1
    = infer model_name request start now s /\
  replay (infer_traced model_name request start now s).2 s
    = (infer model_name request start now s).2 /\
  (loaded (model s) = false ->
   (infer_traced model_name request start now s).2 = []) /\
  (loaded (model s) = true -> is_Some (ACTIVE_REQUESTS s) ->
   (infer_traced model_name request start now s).2
   = ActiveInc
       :: List.filter (fun op => negb (on_active_gauge op))
            (infer_traced model_name request start now s).2
       ++ [ActiveDec]).
Proof.
  unfold infer_traced, infer, infer_try.
  destruct s as [m rc rl ar ml]. cbn [model ACTIVE_REQUESTS].
  destruct (loaded m); cbn [negb].
  2:{ repeat split; try done. }
  assert (Hm : forall v : option Z,
            model (call_metric v ActiveInc (mk_server m rc rl ar ml, [])).1 = m).
  { by intros [v|]. }
  rewrite Hm. cbn [active_inc model].
  destruct (first_input request ≫= _) as [res|e].
  - destruct (shape_of_rows (probabilities res)) as [sh|e];
      destruct ar as [v|], rc as [c|], rl as [h|]; cbn;
      repeat split; try done; by intros _ [? ?].
  - destruct ar as [v|], rc as [c|], rl as [h|]; cbn;
      repeat split; try done; by intros _ [? ?].
Qed.
End TracedHandler.

(** C3.  Whatever the call does, the active-request gauge ends at its
    pre-call value.  The calls the handler makes on its metrics, in order,
    are these: none at all when the model is not ready; otherwise (the
    gauge existing) the first call is the increment of the gauge, the last
    call is its decrement, on the success path and on the failure path
    alike, no call in between touches the gauge, and so the gauge stands
    at its pre-call value plus one for as long as the request is being
    processed. *)
Theorem infer_restores_active_requests {A F : Type} `{FloatOps F}
  `{Float32Cast A F} (model_name : string) (request : InferenceRequest A)
  (start now : F) (s : Server F) :
  ACTIVE_REQUESTS (infer model_name request start now s).2 = ACTIVE_REQUESTS s /\
  (infer_traced model_name request start now s).1
    = infer model_name request start now s /\
  replay (infer_traced model_name request start now s).2 s
    = (infer model_name request start now s).2 /\
  (loaded (model s) = false ->
   (infer_traced model_name request start now s).2 = []) /\
  (loaded (model s) = true -> is_Some (ACTIVE_REQUESTS s) ->
   (infer_traced model_name request start now s).2
   = ActiveInc
       :: List.filter (fun op => negb (on_active_gauge op))
            (infer_traced model_name request start now s).2
       ++ [ActiveDec] /\
   forall k : nat,
     ACTIVE_REQUESTS
       (replay (ActiveInc
                  :: take k (List.filter (fun op => negb (on_active_gauge op))
                               (infer_traced model_name request start now s).2))
          s)
     = (fun v => v + 1) <$> ACTIVE_REQUESTS s).
Proof.
  destruct (infer_traced_spec model_name request start now s)
    as (Hsame & Hreplay & Hnot & Hready).
  split.
  { destruct (infer_final_state model_name request start now s)
      as [[_ ->]|[_ (mid & -> & Hmid)]]; [done|].
    assert (Hg : ACTIVE_REQUESTS mid = ACTIVE_REQUESTS (active_inc s)).
    { by destruct Hmid as [(? & _ & ->)|(? & _ & ->)]. }
    simpl. rewrite Hg. simpl. apply active_inc_dec. }
  split; [done|]. split; [done|]. split; [done|].
  intros Hl Hg. split; [by apply Hready|].
  intros k.
  change (replay (ActiveInc :: ?ops) s) with (replay ops (active_inc s)).
  rewrite replay_keeps_gauge; [done|].
  apply Forall_take, Forall_filter_not_gauge.
Qed.

Lemma infer_restores_active_requests_witness :
  (infer_traced "iris-classifier" batch_request 0%Q 1%Q started).2
  = ActiveInc
      :: List.filter (fun op => negb (on_active_gauge op))
           (infer_traced "iris-classifier" batch_request 0%Q 1%Q started).2
      ++ [ActiveDec] /\
  forall k : nat,
    ACTIVE_REQUESTS
      (replay (ActiveInc
                 :: take k (List.filter (fun op => negb (on_active_gauge op))
                              (infer_traced "iris-classifier" batch_request
                                 0%Q 1%Q started).2))
         started)
    = (fun v => v + 1) <$> ACTIVE_REQUESTS started.
Proof.
  apply (infer_restores_active_requests "iris-classifier" batch_request
           0%Q 1%Q started).
  - reflexivity.
  - eexists. reflexivity.
Defined.

(** The calls of a successful request and of a failed one. *)
Example infer_traced_success :
  (infer_traced "iris-classifier" batch_request 0%Q 1%Q started).2
  = [ActiveInc; CountRequest "success"; ObserveLatency (1 - 0)%Q; ActiveDec].
Proof. reflexivity. Qed.

Example infer_traced_failure :
  (infer_traced "iris-classifier" short_request 0%Q 1%Q started).2
  = [ActiveInc; CountRequest "error"; ActiveDec].
Proof. reflexivity. Qed.

(** C6.  A handled request moves the request counter exactly once: a
    successful call adds one to the [success] series, leaves the [error]
    series alone and records its latency; a failed call adds one to the
    [error] series, leaves the [success] series alone and records no
    latency. *)
Theorem infer_counts_once {A F : Type} `{FloatOps F} `{Float32Cast A F}
  (model_name : string) (request : InferenceRequest A) (start now : F)
  (s : Server F) :
  loaded (model s) = true ->
  is_Some (REQUEST_COUNT s) ->
  is_Some (REQUEST_LATENCY s) ->
  match (infer model_name request start now s).1 with
  | inr _ =>
      request_count "success" (infer model_name request start now s).2
        = S (request_count "success" s) /\
      request_count "error" (infer model_name request start now s).2
        = request_count "error" s /\
      latencies (infer model_name request start now s).2
        = latencies s ++ [fsub now start]
  | inl _ =>
      request_count "error" (infer model_name request start now s).2
        = S (request_count "error" s) /\
      request_count "success" (infer model_name request start now s).2
        = request_count "success" s /\
      latencies (infer model_name request start now s).2 = latencies s
  end.
Proof.
  intros Hl Hc Hh.
  destruct (infer_final_state model_name request start now s)
    as [[Hl' _]|[_ (mid & -> & [(err & -> & ->)|(resp & -> & ->)])]];
    [congruence| |].
  - change (request_count "error" (count_request "error" s)
              = S (request_count "error" s) /\
            request_count "success" (count_request "error" s)
              = request_count "success" s /\
            latencies s = latencies s).
    rewrite !request_count_count_request by done. done.
  - change (request_count "success" (count_request "success" s)
              = S (request_count "success" s) /\
            request_count "error" (count_request "success" s)
              = request_count "error" s /\
            latencies (observe_latency (fsub now start) s)
              = latencies s ++ [fsub now start]).
    rewrite !request_count_count_request by done.
    rewrite latencies_observe_latency by done. done.
Qed.

Lemma infer_counts_once_witness :
  match (infer "iris-classifier" batch_request 0%Q 1%Q started).1 with
  | inr _ =>
      request_count "success"
        (infer "iris-classifier" batch_request 0%Q 1%Q started).2
        = S (request_count "success" started) /\
      request_count "error"
        (infer "iris-classifier" batch_request 0%Q 1%Q started).2
        = request_count "error" started /\
      latencies (infer "iris-classifier" batch_request 0%Q 1%Q started).2
        = latencies started ++ [fsub 1%Q 0%Q]
  | inl _ =>
      request_count "error"
        (infer "iris-classifier" batch_request 0%Q 1%Q started).2
        = S (request_count "error" started) /\
      request_count "success"
        (infer "iris-classifier" batch_request 0%Q 1%Q started).2
        = request_count "success" started /\
      latencies (infer "iris-classifier" batch_request 0%Q 1%Q started).2
        = latencies started
  end.
Proof.
  apply (infer_counts_once "iris-classifier" batch_request 0%Q 1%Q started).
  - reflexivity.
  - eexists. reflexivity.
  - eexists. reflexivity.
Defined.

(** The batch of three rows takes the success branch. *)
Example batch_request_succeeds :
  exists resp, (infer "iris-classifier" batch_request 0%Q 1%Q started).1
               = inr resp /\
    request_count "success"
      (infer "iris-classifier" batch_request 0%Q 1%Q started).2 = 1%nat.
Proof. eexists. split; vm_compute; reflexivity. Qed.

(** C8.  While the model is not loaded, every request is answered 503
    "Model not ready" whatever it carries, and the process state,
    metrics included, is left exactly as it was; and once the model is
    loaded, nothing the process can do (serving any route, loading again)
    unloads it. *)
Theorem infer_not_ready_and_ready_forever {A F : Type} `{FloatOps F}
  `{Float32Cast A F} (s : Server F) :
  (loaded (model s) = false ->
   forall (model_name : string) (request : InferenceRequest A) (start now : F),
     infer model_name request start now s
       = (inl (mk_http 503 (Text "Model not ready")), s)) /\
  (loaded (model s) = true ->
   forall c : call (A:=A), loaded (model (step c s)) = true).
Proof.
  split.
  - intros Hl model_name request start now. unfold infer. by rewrite Hl.
  - intros Hl [| |n|n request start now| |w]; simpl; try done.
    by rewrite infer_model.
Qed.

Lemma infer_not_ready_and_ready_forever_witness :
  (forall (model_name : string) (request : InferenceRequest scalar)
     (start now : Q),
     infer model_name request start now not_started
       = (inl (mk_http 503 (Text "Model not ready")), not_started)) /\
  (forall c : call (A:=scalar), loaded (model (step c started)) = true).
Proof.
  split.
  - apply (infer_not_ready_and_ready_forever not_started). reflexivity.
  - apply (infer_not_ready_and_ready_forever started). reflexivity.
Defined.

(** C10.  A request with an empty [inputs] list is an ordinary request
    value; on a ready model [request.inputs[0]] raises [IndexError] inside
    the [try] block, so the answer is the generic 500 response carrying
    [str(e)], the [error] series gains one, nothing is added to the
    [success] series or to the latencies, and the gauge is back at its
    pre-call value. *)
Theorem infer_empty_inputs {A F : Type} `{FloatOps F} `{Float32Cast A F}
  (model_name : string) (request : InferenceRequest A) (start now : F)
  (s : Server F) :
  loaded (model s) = true ->
  is_Some (REQUEST_COUNT s) ->
  inputs request = [] ->
  infer model_name request start now s
    = (inl (mk_http 500 (StrOf IndexError)),
       active_dec (count_request "error" (active_inc s))) /\
  ACTIVE_REQUESTS (infer model_name request start now s).2 = ACTIVE_REQUESTS s /\
  request_count "error" (infer model_name request start now s).2
    = S (request_count "error" s) /\
  request_count "success" (infer model_name request start now s).2
    = request_count "success" s /\
  latencies (infer model_name request start now s).2 = latencies s.
Proof.
  intros Hl Hc Hin.
  assert (Hrun : infer model_name request start now s
                 = (inl (mk_http 500 (StrOf IndexError)),
                    active_dec (count_request "error" (active_inc s)))).
  { unfold infer, infer_try, first_input. by rewrite Hl, Hin. }
  split; [done|]. rewrite Hrun. simpl. split; [apply active_inc_dec|].
  change (request_count "error" (count_request "error" s)
            = S (request_count "error" s) /\
          request_count "success" (count_request "error" s)
            = request_count "success" s /\
          latencies s = latencies s).
  rewrite !request_count_count_request by done. done.
Qed.

Lemma infer_empty_inputs_witness :
  infer "iris-classifier" empty_request 0%Q 1%Q started
    = (inl (mk_http 500 (StrOf IndexError)),
       active_dec (count_request "error" (active_inc started))) /\
  ACTIVE_REQUESTS (infer "iris-classifier" empty_request 0%Q 1%Q started).2
    = ACTIVE_REQUESTS started /\
  request_count "error"
    (infer "iris-classifier" empty_request 0%Q 1%Q started).2
    = S (request_count "error" started) /\
  request_count "success"
    (infer "iris-classifier" empty_request 0%Q 1%Q started).2
    = request_count "success" started /\
  latencies (infer "iris-classifier" empty_request 0%Q 1%Q started).2
    = latencies started.
Proof.
  apply (infer_empty_inputs "iris-classifier" empty_request 0%Q 1%Q started).
  - reflexivity.
  - eexists. reflexivity.
  - reflexivity.
Defined.

(** A request whose first tensor decodes to [n] rows of 4 features is
    answered with a prediction. *)
Lemma infer_valid_succeeds {A F : Type} `{FloatOps F} `{Float32Cast A F}
  (model_name : string) (request : InferenceRequest A) (start now : F)
  (s : Server F) (inp : InferenceInput A) (rest : list (InferenceInput A))
  (raw : ndarray F) (n : nat) :
  loaded (model s) = true ->
  inputs request = inp :: rest ->
  decode inp = Return raw ->
  nd_shape raw = [n; N_FEATURES] ->
  exists resp, (infer model_name request start now s).1 = inr resp.
Proof.
  intros Hl Hin Hd Hsh.
  destruct (infer_ready_cases model_name request start now s Hl)
    as [(e & _ & Hno)|(? & ? & ? & p & m & _ & _ & _ & _ & _ & _ & ->)];
    [|by eexists].
  exfalso. specialize (Hno inp rest Hin). unfold decode in Hd.
  rewrite Hd in Hno. simpl in Hno.
  destruct (predict_2d (model s) raw n Hsh) as (p & Hp & _).
  by rewrite Hp in Hno.
Qed.

(** C9.  A successful call answers a batch of [n >= 1] rows of 4 features,
    where [n] is read off the request: 1 when [data] is a flat list of 4
    scalars, and the number of rows when [data] is a list of [n] lists of 4
    scalars.  Its response lists exactly two outputs, in this order:
    [probabilities], FP32, of shape [[n, 3]], holding [n] rows of 3
    numbers; then [predicted_class], BYTES, of shape [[n]], holding [n]
    labels. *)
Theorem infer_success_outputs {A F : Type} `{FloatOps F} `{Float32Cast A F}
  (model_name : string) (request : InferenceRequest A) (start now : F)
  (s : Server F) (resp : InferenceResponse F) :
  (infer model_name request start now s).1 = inr resp ->
  exists (n : nat) (inp : InferenceInput A) (rest : list (InferenceInput A))
         (raw : ndarray F) (probs : list (list F)) (classes : list string),
    (1 <= n)%nat /\
    inputs request = inp :: rest /\
    (discover_shape (Seq (data inp)) = Some [N_FEATURES] /\ n = 1%nat \/
     discover_shape (Seq (data inp)) = Some [n; N_FEATURES] /\
     n = length (data inp)) /\
    element_count (data inp) = (n * N_FEATURES)%nat /\
    decode inp = Return raw /\
    nd_shape raw = [n; N_FEATURES] /\
    outputs resp =
      [ mk_output "probabilities" [n; N_CLASSES] "FP32" (FloatRows probs);
        mk_output "predicted_class" [n] "BYTES" (Labels classes) ] /\
    length probs = n /\
    Forall (fun r => length r = N_CLASSES) probs /\
    length classes = n.
Proof.
  intros Hok.
  destruct (loaded (model s)) eqn:Hl.
  2:{ unfold infer in Hok. by rewrite Hl in Hok. }
  destruct (infer_ready_cases model_name request start now s Hl)
    as [(e & Hrun & _)|(inp & rest & raw & p & n & Hin & Hd & Hp & Hn & Hsh & Hwf & Hrun)];
    rewrite Hrun in Hok; [discriminate|].
  injection Hok as <-.
  destruct (decode_predict_Return _ _ _ _ Hd Hp)
    as (m & _ & Hshm & _ & Hcount & Hlink).
  assert (m = n) as -> by congruence.
  destruct Hwf as (Hlen & Hrows & Hcls & _).
  exists n, inp, rest, raw, (probabilities p), (predicted_class p).
  split; [done|]. split; [done|]. split.
  { destruct Hlink as [Hflat|Hnested]; [by left|]. right. split; [done|].
    destruct (discover_seq_shape _ _ Hnested) as (s' & Heq & _). congruence. }
  repeat (split; [done|]). apply Forall2_length in Hcls. congruence.
Qed.

Lemma infer_success_outputs_witness :
  exists (probs : list (list Q)) (classes : list string),
    outputs batch_response =
      [ mk_output "probabilities" [3%nat; N_CLASSES] "FP32" (FloatRows probs);
        mk_output "predicted_class" [3%nat] "BYTES" (Labels classes) ] /\
    length probs = 3%nat /\
    Forall (fun r => length r = N_CLASSES) probs /\
    length classes = 3%nat.
Proof.
  assert (Hrun : (infer "iris-classifier" batch_request 0%Q 1%Q started).1
                 = inr batch_response) by (vm_compute; reflexivity).
  destruct (infer_success_outputs "iris-classifier" batch_request 0%Q 1%Q
              started batch_response Hrun)
    as (n & inp & rest & raw & probs & classes & _ & Hin & Hlink & _ & _ & _
        & Hout & Hp & Hrows & Hc).
  injection Hin as <- _.
  assert (Hn : n = 3%nat).
  { destruct Hlink as [[Hflat _]|[_ Hn]]; [discriminate Hflat|exact Hn]. }
  rewrite Hn in Hout, Hp, Hc. exists probs, classes.
  split; [exact Hout|]. split; [exact Hp|]. split; [exact Hrows|exact Hc].
Defined.

(** The batch of three rows gets three rows back. *)
Example batch_request_outputs :
  (fun r => match r with
            | inr resp => map (fun o => (o_name o, o_shape o, o_datatype o))
                            (outputs resp)
            | inl _ => []
            end) (infer "iris-classifier" batch_request 0%Q 1%Q started).1
  = [("probabilities", [3%nat; 3%nat], "FP32");
     ("predicted_class", [3%nat], "BYTES")].
Proof. vm_compute. reflexivity. Qed.

(** Exact rationals satisfy the order facts (and have no NaN). *)
#[global] Instance Q_order : FloatOrder Q.
Proof.
  split; simpl.
  - intros a b c Hab Hbc. apply Qle_bool_iff in Hab, Hbc.
    apply Qle_bool_iff. by apply Qle_trans with b.
  - intros a b _ _. destruct (Qlt_le_dec a b) as [Hlt|Hle].
    + left. by apply Qle_bool_iff, Qlt_le_weak.
    + right. by apply Qle_bool_iff.
  - discriminate.
Qed.

(** C5.  In every prediction there is one label per row of
    probabilities, and the label of a row is [CLASSES[argmax(row)]], one of
    the three labels.  The index chosen is the lowest one that holds the
    row's maximum: no entry exceeds the entry at that index and every
    earlier entry is strictly smaller.  (A row that holds a NaN follows
    NumPy's convention instead: the first NaN is chosen.) *)
Theorem predicted_class_first_argmax {F : Type} `{FloatOrder F}
  (self : IrisClassifier F) (inputs : ndarray F) (p : prediction F) :
  predict self inputs = Return p ->
  length (predicted_class p) = length (probabilities p) /\
  Forall2 (fun row c =>
             exists i, argmax row = Return i /\
                       CLASSES !! i = Some c /\
                       c ∈ ["setosa"; "versicolor"; "virginica"] /\
                       (Forall (fun x => fisnan x = false) row ->
                        first_max row i) /\
                       (Exists (fun x => fisnan x = true) row ->
                        first_nan row i))
    (probabilities p) (predicted_class p).
Proof.
  intros [(n & _ & Hwf)|(? & ? & ? & _ & ->)]%predict_Return.
  - destruct Hwf as (_ & _ & Hcls & _). split.
    + symmetry. by apply Forall2_length in Hcls.
    + eapply Forall2_impl; [exact Hcls|]. simpl.
      intros row c (i & Hi & _ & Hc). exists i. split; [done|]. split; [done|].
      split; [eapply list_elem_of_lookup_2, Hc|].
      split; intros Hrow.
      * by apply argmax_first_max.
      * by apply argmax_first_nan.
  - simpl. split; [done|]. constructor.
Qed.

Lemma predicted_class_first_argmax_witness :
  length (predicted_class iris_prediction)
    = length (probabilities iris_prediction) /\
  Forall2 (fun row c =>
             exists i, argmax row = Return i /\
                       CLASSES !! i = Some c /\
                       c ∈ ["setosa"; "versicolor"; "virginica"] /\
                       (Forall (fun x => fisnan x = false) row ->
                        first_max row i) /\
                       (Exists (fun x => fisnan x = true) row ->
                        first_nan row i))
    (probabilities iris_prediction) (predicted_class iris_prediction).
Proof.
  apply (predicted_class_first_argmax (model started) iris_array
           iris_prediction).
  vm_compute. reflexivity.
Defined.

(** Ties go to the lowest index. *)
Example argmax_tie : argmax [0.25; 0.5; 0.5]%Q = Return 1%nat.
Proof. reflexivity. Qed.

Example argmax_all_equal : argmax [1; 1; 1]%Q = Return 0%nat.
Proof. reflexivity. Qed.

(** ** The registry *)

Lemma strip_suffix_Some (suf s p : string) :
  strip_suffix suf s = Some p -> s = p +:+ suf.
Proof.
  revert p. induction s as [|c s IH]; intros p; cbn [strip_suffix].
  - destruct (String.eqb "" suf) eqn:Heq; [|discriminate].
    apply String.eqb_eq in Heq. by intros [= <-].
  - destruct (String.eqb (String c s) suf) eqn:Heq.
    + apply String.eqb_eq in Heq. by intros [= <-].
    + destruct (strip_suffix suf s) as [p'|]; simpl; [|discriminate].
      intros [= <-]. change (String c s = String c (p' +:+ suf)).
      f_equal. by apply IH.
Qed.

(** A metric clashes with its own name, munged or not. *)
Lemma name_in_metric_names (cls : metric_class) (n : string) :
  In n (metric_names cls (full_name cls n)).
Proof.
  destruct cls; simpl; auto.
  destruct (strip_suffix "_total" n) as [p|] eqn:Hp; simpl; auto.
  apply strip_suffix_Some in Hp. auto.
Qed.

Section RegistryFacts.
Variable valid : metric_class -> string -> list string -> kwargs -> bool.

(** Constructing a metric under a registered name is refused with
    [ValueError], by the argument checks or by the registry. *)
Lemma construct_registered (cls : metric_class) (n description : string)
  (labelnames : list string) (kw : kwargs) (reg : CollectorRegistry) :
  accepts cls kw = true ->
  is_Some (names_to_collectors reg !! n) ->
  construct valid cls n description labelnames kw reg = Raise ValueError.
Proof.
  intros Hkw Hn. unfold construct. rewrite Hkw. cbn [negb].
  destruct (valid cls n labelnames kw); cbn [negb]; [|done].
  unfold register. cbn [c_class c_name].
  assert (Hdup : existsb
            (fun m => bool_decide (is_Some (names_to_collectors reg !! m)))
            (metric_names cls (full_name cls n)) = true).
  { apply existsb_exists. exists n. split; [apply name_in_metric_names|].
    by apply bool_decide_eq_true. }
  by rewrite Hdup.
Qed.

Lemma get_or_create_metric_registered (cls : metric_class)
  (n description : string) (labels : option (list string)) (kw : kwargs)
  (reg : CollectorRegistry) :
  accepts cls kw = true ->
  is_Some (names_to_collectors reg !! n) ->
  get_or_create_metric valid cls n description labels kw reg
    = (Return (names_to_collectors reg !! n), reg).
Proof.
  intros Hkw Hn. unfold get_or_create_metric.
  destruct labels as [[|l ls]|]; by rewrite construct_registered.
Qed.

(** A second run of the module's metric definitions (a reload) gets the
    four objects of the first run back and leaves the registry alone. *)
Lemma module_metrics_reload (reg : CollectorRegistry) (a b c d : collector) :
  names_to_collectors reg !! "inference_requests_total" = Some a ->
  names_to_collectors reg !! "inference_request_duration_seconds" = Some b ->
  names_to_collectors reg !! "inference_active_requests" = Some c ->
  names_to_collectors reg !! "model_loaded" = Some d ->
  module_metrics valid reg = (Return [Some a; Some b; Some c; Some d], reg).
Proof.
  intros Ha Hb Hc Hd. unfold module_metrics.
  rewrite !get_or_create_metric_registered by (by rewrite ?Ha, ?Hb, ?Hc, ?Hd).
  by rewrite Ha, Hb, Hc, Hd.
Qed.
End RegistryFacts.

(** C7.  Registering under a name the registry already holds does not
    fail: for each of the three metric classes, with labels or without,
    [get_or_create_metric] returns the collector registered under that
    name, the very object, and the registry is unchanged. *)
Theorem get_or_create_metric_idempotent
  (valid : metric_class -> string -> list string -> kwargs -> bool)
  (cls : metric_class) (n description : string) (labels : option (list string))
  (kw : kwargs) (reg : CollectorRegistry) (existing : collector) :
  accepts cls kw = true ->
  names_to_collectors reg !! n = Some existing ->
  get_or_create_metric valid cls n description labels kw reg
    = (Return (Some existing), reg).
Proof.
  intros Hkw Hn. rewrite get_or_create_metric_registered by (by rewrite ?Hn).
  by rewrite Hn.
Qed.

Lemma get_or_create_metric_idempotent_witness :
  get_or_create_metric accept_all Histogram
    "inference_request_duration_seconds" "Inference latency in seconds"
    (Some ["model"]) (Some [0.01; 0.025; 0.05; 0.1; 0.25; 0.5; 1.0; 2.5]%Q)
    imported_registry
  = (Return (Some (mk_collector 1 Histogram
                     "inference_request_duration_seconds" ["model"])),
     imported_registry).
Proof.
  apply get_or_create_metric_idempotent.
  - reflexivity.
  - vm_compute. reflexivity.
Defined.

(** The registry after the module has been imported once. *)
Example module_metrics_first_run :
  (module_metrics accept_all empty_registry).1
  = Return [Some (mk_collector 0 Counter "inference_requests" ["model"; "status"]);
            Some (mk_collector 1 Histogram "inference_request_duration_seconds"
                    ["model"]);
            Some (mk_collector 2 Gauge "inference_active_requests" []);
            Some (mk_collector 3 Gauge "model_loaded" ["model"])].
Proof. vm_compute. reflexivity. Qed.

Example module_metrics_second_run :
  module_metrics accept_all (module_metrics accept_all empty_registry).2
  = module_metrics accept_all empty_registry.
Proof. vm_compute. reflexivity. Qed.

(** * Further properties of the code *)

(** ** Decoding *)

Lemma mapM_Forall2 {T U} (f : T -> result U) (l : list T) (k : list U) :
  Forall2 (fun x y => f x = Return y) l k -> mapM f l = Return k.
Proof.
  induction 1 as [|x y l k Hxy _ IH]; simpl; [done|].
  rewrite Hxy; simpl. by rewrite IH.
Qed.

Lemma Forall2_concat {T U} (R : T -> U -> Prop) (ls : list (list T))
  (ks : list (list U)) :
  Forall2 (Forall2 R) ls ks -> Forall2 R (concat ls) (concat ks).
Proof.
  induction 1 as [|l k ls ks Hlk _ IH]; simpl; [constructor|].
  by apply Forall2_app.
Qed.

Lemma rows_concat {F} (xs : list (list F)) (k : nat) :
  Forall (fun r => length r = k) xs ->
  rows (length xs) k (concat xs) = xs.
Proof.
  unfold rows. induction 1 as [|r xs Hr _ IH]; simpl; [done|].
  rewrite take_app_length' by done. rewrite drop_app_length' by done.
  by rewrite IH.
Qed.

Lemma discover_shape_atoms {A} (r : list A) :
  discover_shape (Seq (map Atom r)) = Some [length r].
Proof.
  simpl. destruct r as [|a r]; [done|]. simpl.
  assert (Hall : forallb (fun o : option (list nat) => bool_decide (o = Some []))
                   (map discover_shape (map Atom r)) = true).
  { apply forallb_forall. intros o Ho.
    apply in_map_iff in Ho as (x & <- & Hx).
    apply in_map_iff in Hx as (b & <- & _). by apply bool_decide_eq_true. }
  rewrite Hall. by rewrite !length_map.
Qed.

Lemma leaves_atoms {A} (r : list A) : leaves (Seq (map Atom r)) = r.
Proof. simpl. induction r as [|a r IH]; simpl; [done|]. by f_equal. Qed.

Lemma discover_shape_rows {A} (rs : list (list A)) (k : nat) :
  rs <> [] ->
  Forall (fun r => length r = k) rs ->
  discover_shape (Seq (map (fun r => Seq (map Atom r)) rs))
    = Some [length rs; k].
Proof.
  intros Hne Hall.
  change (seq_shape (map discover_shape
                       (map (fun r : list A => Seq (map Atom r)) rs))
          = Some [length rs; k]).
  assert (Hshapes : map discover_shape
                      (map (fun r : list A => Seq (map Atom r)) rs)
                    = map (fun _ => Some [k]) rs).
  { clear Hne. induction Hall as [|r rs Hr _ IH]; [done|].
    cbn [map]. rewrite IH. f_equal.
    rewrite <- Hr. apply (discover_shape_atoms r). }
  rewrite Hshapes. destruct rs as [|r rs]; [done|]. cbn [map seq_shape].
  assert (Hfa : forallb (fun o : option (list nat) => bool_decide (o = Some [k]))
                  (map (fun _ : list A => Some [k]) rs) = true).
  { apply forallb_forall. intros o Ho.
    apply in_map_iff in Ho as (x & <- & _). by apply bool_decide_eq_true. }
  rewrite Hfa. simpl. by rewrite length_map.
Qed.

Lemma leaves_rows {A} (rs : list (list A)) :
  leaves (Seq (map (fun r => Seq (map Atom r)) rs)) = concat rs.
Proof.
  change (concat (map leaves (map (fun r : list A => Seq (map Atom r)) rs))
          = concat rs).
  f_equal. induction rs as [|r rs IH]; [done|].
  cbn [map]. rewrite IH. f_equal. apply (leaves_atoms r).
Qed.

Section DecodeRoundTrip.
Context {A F : Type} `{Float32Cast A F}.

(** X1.  A nested payload of [n >= 1] rows of [k] scalars each is decoded to the
    [n] x [k] array holding the converted scalars row after row, and
    cutting that buffer into rows of [k] gives the converted rows back. *)
Theorem decode_rows_round_trip (rs : list (list A)) (xs : list (list F))
  (k : nat) :
  (2 <= NPY_MAXDIMS)%nat ->
  rs <> [] ->
  Forall (fun r => length r = k) rs ->
  Forall2 (Forall2 (fun a x => as_float32 a = Return x)) rs xs ->
  decode_data (map (fun r => Seq (map Atom r)) rs)
    = Return (mk_ndarray [length rs; k] (concat xs)) /\
  rows (length rs) k (concat xs) = xs.
Proof.
  intros Hmax Hne Hlen Hconv. split.
  - unfold decode_data, np_array.
    rewrite (discover_shape_rows rs k Hne Hlen), leaves_rows.
    destruct (Nat.ltb_spec NPY_MAXDIMS (length [length rs; k])) as [Hlt|_];
      [simpl in Hlt; lia|].
    rewrite (mapM_Forall2 as_float32 (concat rs) (concat xs))
      by (by apply Forall2_concat).
    done.
  - rewrite (Forall2_length _ _ _ Hconv). apply rows_concat.
    clear Hne. induction Hconv as [|r x rs xs Hrx _ IH]; [constructor|].
    inversion Hlen; subst. constructor; [|auto].
    symmetry. by apply Forall2_length in Hrx.
Qed.

(** X2.  A flat list of [k] scalars ([k] may be 0) is decoded to the 1 x [k]
    array of the converted scalars, in order. *)
Theorem decode_flat_is_one_row (r : list A) (x : list F) :
  (1 <= NPY_MAXDIMS)%nat ->
  Forall2 (fun a y => as_float32 a = Return y) r x ->
  decode_data (map Atom r) = Return (mk_ndarray [1%nat; length r] x).
Proof.
  intros Hmax Hconv. unfold decode_data, np_array.
  rewrite discover_shape_atoms, leaves_atoms.
  destruct (Nat.ltb_spec NPY_MAXDIMS (length [length r])) as [Hlt|_];
    [simpl in Hlt; lia|].
  rewrite (mapM_Forall2 as_float32 r x Hconv). simpl.
  unfold reshape_1_minus1. simpl.
  by rewrite (Forall2_length _ _ _ Hconv).
Qed.

(** [np.array] accepts exactly the payloads that are rectangular (every
    list at a given depth has the same shape), not nested deeper than NumPy
    allows, and made of scalars that all convert. *)
Theorem np_array_accepts_iff (d : list (any A)) :
  (exists raw : ndarray F, np_array d = Return raw) <->
  (exists sh, discover_shape (Seq d) = Some sh /\
              (length sh <= NPY_MAXDIMS)%nat /\
              Forall (fun a => is_Return (as_float32 a) = true)
                (leaves (Seq d))).
Proof.
  split.
  - intros [raw (Hsh & Hmax & Hconv)%np_array_Return].
    exists (nd_shape raw). split; [done|]. split; [done|].
    clear -Hconv. induction Hconv as [|a x l k Hax _ IH]; constructor; [|done].
    by rewrite Hax.
  - intros (sh & Hsh & Hmax & Hconv). unfold np_array. rewrite Hsh.
    destruct (Nat.ltb_spec NPY_MAXDIMS (length sh)) as [Hlt|_]; [lia|].
    destruct (mapM_total as_float32 (leaves (Seq d))) as [xs Hxs].
    { eapply Forall_impl; [exact Hconv|]. intros a Ha. simpl in Ha.
      destruct (as_float32 a); [by eexists|discriminate]. }
    rewrite Hxs. simpl. by eexists.
Qed.
End DecodeRoundTrip.

Lemma decode_rows_round_trip_witness :
  decode_data (map (fun r => Seq (map Atom r)) batch_scalars)
    = Return (mk_ndarray [length batch_scalars; 4%nat] (concat batch_values)) /\
  rows (length batch_scalars) 4 (concat batch_values) = batch_values.
Proof.
  apply (decode_rows_round_trip batch_scalars batch_values 4).
  - simpl. lia.
  - discriminate.
  - repeat constructor.
  - repeat constructor.
Defined.

Lemma decode_flat_is_one_row_witness :
  decode_data (map Atom (map Num [5.1; 3.5; 1.4; 0.2]%Q))
    = Return (mk_ndarray [1%nat; length (map Num [5.1; 3.5; 1.4; 0.2]%Q)]
                [5.1; 3.5; 1.4; 0.2]%Q).
Proof.
  apply (decode_flat_is_one_row (map Num [5.1; 3.5; 1.4; 0.2]%Q)
           [5.1; 3.5; 1.4; 0.2]%Q).
  - simpl. lia.
  - repeat constructor.
Defined.

(** ** The prediction *)

Section ConfidenceFacts.
Context {F : Type} `{FloatOps F}.

Lemma fmaximum_nan_sticky (a : F) (l : list F) :
  fisnan a = true -> foldl fmaximum a l = a.
Proof.
  intros Ha. induction l as [|b l IH]; simpl; [done|].
  unfold fmaximum at 2. rewrite Ha, orb_true_r. exact IH.
Qed.

(** The scan of [argmax] stops on the very entry [max] returns. *)
Lemma argmax_loop_np_max (l pre : list F) (mp : F) (max_ind : nat) :
  fisnan mp = false ->
  pre !! max_ind = Some mp ->
  (pre ++ l) !! argmax_loop mp max_ind (length pre) l
    = Some (foldl fmaximum mp l).
Proof.
  revert pre mp max_ind.
  induction l as [|x l IH]; intros pre mp max_ind Hmp Hpre; simpl.
  - by rewrite app_nil_r.
  - unfold fmaximum at 2. rewrite Hmp, orb_false_r.
    replace (pre ++ x :: l) with ((pre ++ [x]) ++ l)
      by (by rewrite <- app_assoc).
    replace (S (length pre)) with (length (pre ++ [x]))
      by (rewrite length_app; simpl; lia).
    destruct (fle x mp).
    + apply IH; [done|]. by apply lookup_app_l_Some.
    + destruct (fisnan x) eqn:Hx.
      * rewrite fmaximum_nan_sticky by done.
        rewrite <- app_assoc. simpl. by rewrite list_lookup_middle.
      * apply IH; [done|]. rewrite lookup_app_r by lia.
        by rewrite Nat.sub_diag.
Qed.

Lemma np_max_argmax (row : list F) (i : nat) (m : F) :
  argmax row = Return i -> np_max row = Return m -> row !! i = Some m.
Proof.
  destruct row as [|x l]; [discriminate|]. simpl. intros [= <-] [= <-].
  destruct (fisnan x) eqn:Hx.
  - by rewrite fmaximum_nan_sticky.
  - by apply (argmax_loop_np_max l [x] x 0).
Qed.

(** X10.  [confidence[n]] is the probability of the predicted class: the entry
    of row [n] of [probabilities] at the index whose label is
    [predicted_class[n]]. *)
Theorem predict_confidence_of_predicted_class (self : IrisClassifier F)
  (inputs : ndarray F) (p : prediction F) :
  predict self inputs = Return p ->
  length (confidence p) = length (probabilities p) /\
  forall (n : nat) (row : list F) (conf : F) (c : string),
    probabilities p !! n = Some row ->
    confidence p !! n = Some conf ->
    predicted_class p !! n = Some c ->
    exists i, row !! i = Some conf /\ CLASSES !! i = Some c.
Proof.
  intros [(k & _ & Hwf)|(? & ? & ? & _ & ->)]%predict_Return.
  - destruct Hwf as (_ & _ & Hcls & Hconf). split.
    + symmetry. by apply Forall2_length in Hconf.
    + intros n row conf c Hrow Hc Hl.
      destruct (Forall2_lookup_lr _ _ _ _ _ _ Hcls Hrow Hl) as (i & Hi & _ & Hci).
      pose proof (Forall2_lookup_lr _ _ _ _ _ _ Hconf Hrow Hc) as Hm.
      exists i. split; [|done]. by apply np_max_argmax.
  - simpl. split; [done|]. intros n row conf c Hrow. by destruct n.
Qed.
End ConfidenceFacts.

Lemma predict_confidence_of_predicted_class_witness :
  length (confidence iris_prediction) = length (probabilities iris_prediction) /\
  forall (n : nat) (row : list Q) (conf : Q) (c : string),
    probabilities iris_prediction !! n = Some row ->
    confidence iris_prediction !! n = Some conf ->
    predicted_class iris_prediction !! n = Some c ->
    exists i, row !! i = Some conf /\ CLASSES !! i = Some c.
Proof.
  apply (predict_confidence_of_predicted_class (model started) iris_array
           iris_prediction).
  vm_compute. reflexivity.
Defined.

(** X11.  On a row without NaN, no probability exceeds [confidence[n]]. *)
Theorem predict_confidence_is_maximum {F : Type} `{FloatOrder F}
  (self : IrisClassifier F) (inputs : ndarray F) (p : prediction F)
  (n : nat) (row : list F) (conf : F) :
  predict self inputs = Return p ->
  probabilities p !! n = Some row ->
  confidence p !! n = Some conf ->
  Forall (fun x => fisnan x = false) row ->
  Forall (fun x => fle x conf = true) row.
Proof.
  intros [(k & _ & Hwf)|(? & ? & ? & _ & ->)]%predict_Return Hrow Hc Hnan.
  - destruct Hwf as (_ & Hlen & _ & Hconf).
    pose proof (Forall2_lookup_lr _ _ _ _ _ _ Hconf Hrow Hc) as Hm.
    assert (Hne : row <> []).
    { apply length_N_CLASSES_nonempty.
      rewrite Forall_forall in Hlen. eapply Hlen, list_elem_of_lookup_2, Hrow. }
    destruct (argmax_total row Hne) as [i Hi].
    pose proof (np_max_argmax row i conf Hi Hm) as Hic.
    destruct (argmax_first_max row i Hnan Hi) as (m & Hm' & Hub & _).
    assert (m = conf) as -> by congruence.
    apply Forall_forall. intros x Hx.
    apply list_elem_of_lookup_1 in Hx as [j Hj]. by apply (Hub j).
  - by destruct n.
Qed.

Lemma predict_confidence_is_maximum_witness :
  Forall (fun x => fle x (1 # 3)%Q = true) [1 # 3; 1 # 3; 1 # 3]%Q.
Proof.
  apply (predict_confidence_is_maximum
           (mk_model true (fun _ _ => 0%Q)) iris_array
           (mk_prediction [[1 # 3; 1 # 3; 1 # 3]%Q] ["setosa"] [(1 # 3)%Q])
           0 [1 # 3; 1 # 3; 1 # 3]%Q (1 # 3)%Q).
  - vm_compute. reflexivity.
  - reflexivity.
  - reflexivity.
  - repeat constructor.
Defined.

(** ** The handler, continued *)

Section HandlerFacts.
Context {A F : Type} `{FloatOps F} `{Float32Cast A F}.
Implicit Types (s : Server F) (request : InferenceRequest A).

Lemma decode_data_np_array (d : list (any A)) (raw : ndarray F) :
  decode_data d = Return raw ->
  exists raw0 : ndarray F, np_array d = Return raw0.
Proof.
  unfold decode_data. intros (raw0 & Hraw0 & _)%bind_Return. by exists raw0.
Qed.

(** The result of the [try] block is a function of the model alone. *)
Lemma infer_try_result (request : InferenceRequest A) (start now : F) s1 s2 :
  model s1 = model s2 ->
  (infer_try request start now s1).1 = (infer_try request start now s2).1.
Proof.
  intros Hm. unfold infer_try. rewrite Hm.
  by destruct (first_input request ≫= _).
Qed.

Lemma infer_try_MODEL_LOADED (request : InferenceRequest A) (start now : F) s :
  MODEL_LOADED (infer_try request start now s).2 = MODEL_LOADED s.
Proof. unfold infer_try. by destruct (first_input request ≫= _). Qed.
End HandlerFacts.

(** X3.  On a ready model the answer is 200 exactly when the request has a
    first tensor whose [data] is a flat list of 4 scalars or a list of
    [n >= 1] lists of 4 scalars, all of which convert; tensors after the
    first play no part. *)
Theorem infer_accepts_iff {A F : Type} `{FloatOps F} `{Float32Cast A F}
  (model_name : string) (request : InferenceRequest A) (start now : F)
  (s : Server F) :
  loaded (model s) = true ->
  ((exists resp, (infer model_name request start now s).1 = inr resp) <->
   (exists inp rest sh,
      inputs request = inp :: rest /\
      discover_shape (Seq (data inp)) = Some sh /\
      (sh = [N_FEATURES] \/ exists n, sh = [n; N_FEATURES]) /\
      (length sh <= NPY_MAXDIMS)%nat /\
      Forall (fun a => is_Return (as_float32 a) = true)
        (leaves (Seq (data inp))))).
Proof.
  intros Hl. split.
  - intros [resp Hresp].
    destruct (infer_ready_cases model_name request start now s Hl)
      as [(e & Hrun & _)|(inp & rest & raw & p & n & Hin & Hd & Hp & _)];
      [by rewrite Hrun in Hresp|].
    destruct (decode_data_np_array _ _ Hd) as [raw0 Hraw0].
    destruct (proj1 (np_array_accepts_iff (data inp)) (ex_intro _ raw0 Hraw0))
      as (sh & Hsh & Hmax & Hconv).
    exists inp, rest, sh. split; [done|]. split; [done|].
    split; [|done].
    destruct (decode_predict_Return _ _ _ _ Hd Hp)
      as (m & _ & _ & _ & _ & [[Hflat _]|Hrows]).
    + left. congruence.
    + right. exists m. congruence.
  - intros (inp & rest & sh & Hin & Hsh & Hshape & Hmax & Hconv).
    destruct (proj2 (np_array_accepts_iff (data inp)))
      as [raw0 Hraw0]; [by exists sh|].
    pose proof (np_array_Return _ _ Hraw0) as (Hsh0 & _ & _).
    rewrite Hsh in Hsh0. injection Hsh0 as Hsh0.
    destruct Hshape as [->|[n ->]].
    + apply (infer_valid_succeeds model_name request start now s inp rest
               (reshape_1_minus1 raw0) 1 Hl Hin).
      * unfold decode, decode_data. rewrite Hraw0. simpl.
        unfold ndim. by rewrite <- Hsh0.
      * simpl. f_equal. f_equal.
        destruct (np_array_count _ _ Hraw0) as [Hlen Hprod].
        rewrite <- Hsh0 in Hprod. simpl in Hprod. unfold N_FEATURES. lia.
    + apply (infer_valid_succeeds model_name request start now s inp rest
               raw0 n Hl Hin).
      * unfold decode, decode_data. rewrite Hraw0. simpl.
        unfold ndim. by rewrite <- Hsh0.
      * done.
Qed.

Lemma infer_accepts_iff_witness :
  (exists resp,
     (infer "iris-classifier" batch_request 0%Q 1%Q started).1 = inr resp) <->
  (exists inp rest sh,
     inputs batch_request = inp :: rest /\
     discover_shape (Seq (data inp)) = Some sh /\
     (sh = [N_FEATURES] \/ exists n, sh = [n; N_FEATURES]) /\
     (length sh <= NPY_MAXDIMS)%nat /\
     Forall (fun a => is_Return (as_float32 a) = true)
       (leaves (Seq (data inp)))).
Proof.
  apply (infer_accepts_iff "iris-classifier" batch_request 0%Q 1%Q started).
  reflexivity.
Defined.

(** X4.  The handler reads the request's [id] and the [data] of its first
    tensor and nothing else: two requests that agree on these get the same
    answer and leave the same state, whatever the path's model name, the
    declared names, shapes and datatypes, and the tensors that follow. *)
Theorem infer_reads_id_and_first_data {A F : Type} `{FloatOps F}
  `{Float32Cast A F} (name1 name2 : string)
  (request1 request2 : InferenceRequest A) (start now : F) (s : Server F) :
  req_id request1 = req_id request2 ->
  data <$> head (inputs request1) = data <$> head (inputs request2) ->
  infer name1 request1 start now s = infer name2 request2 start now s.
Proof.
  intros Hid Hdata. unfold infer, infer_try, first_input. rewrite Hid.
  destruct (inputs request1) as [|i1 r1], (inputs request2) as [|i2 r2];
    simpl in Hdata; try discriminate; [done|].
  injection Hdata as Hd. cbn [mbind result_bind]. by rewrite Hd.
Qed.

Lemma infer_reads_id_and_first_data_witness :
  infer "iris-classifier" (single_request [1; 4]) 0%Q 1%Q started
  = infer "another-model"
      (mk_request (Some "test-001")
         [mk_input "x" [7; 9] "BYTES" iris_row;
          mk_input "y" [] "FP32" [Atom Obj]])
      0%Q 1%Q started.
Proof.
  apply infer_reads_id_and_first_data.
  - reflexivity.
  - reflexivity.
Defined.

(** X5.  A response echoes the request's [id] and names the model and the
    version of the classifier, ["v1.0.0"], not the schema's default
    ["v1"]. *)
Theorem infer_echoes_id {A F : Type} `{FloatOps F} `{Float32Cast A F}
  (path_name : string) (request : InferenceRequest A) (start now : F)
  (s : Server F) (resp : InferenceResponse F) :
  (infer path_name request start now s).1 = inr resp ->
  resp_id resp = req_id request /\
  model_name resp = "iris-classifier" /\
  model_version resp = "v1.0.0".
Proof.
  intros Hok. destruct (loaded (model s)) eqn:Hl.
  2:{ unfold infer in Hok. by rewrite Hl in Hok. }
  destruct (infer_ready_cases path_name request start now s Hl)
    as [(e & Hrun & _)|(? & ? & ? & p & n & _ & _ & _ & _ & _ & _ & Hrun)];
    rewrite Hrun in Hok; [discriminate|].
  by injection Hok as <-.
Qed.

Lemma infer_echoes_id_witness :
  resp_id single_response = req_id (single_request [1; 4]) /\
  model_name single_response = "iris-classifier" /\
  model_version single_response = "v1.0.0".
Proof.
  apply (infer_echoes_id "iris-classifier" (single_request [1; 4]) 0%Q 1%Q
           started single_response).
  vm_compute. reflexivity.
Defined.

(** X6.  The metrics only observe: the answer of [infer] is the same on two
    states that hold the same model, whatever their metrics hold or
    whether they exist at all; and [infer] changes neither the model nor
    the [model_loaded] gauge. *)
Theorem infer_answer_ignores_metrics {A F : Type} `{FloatOps F}
  `{Float32Cast A F} (model_name : string) (request : InferenceRequest A)
  (start now : F) (s1 s2 : Server F) :
  model s1 = model s2 ->
  (infer model_name request start now s1).1
    = (infer model_name request start now s2).1 /\
  model (infer model_name request start now s1).2 = model s1 /\
  MODEL_LOADED (infer model_name request start now s1).2 = MODEL_LOADED s1.
Proof.
  intros Hm. split; [|split].
  - unfold infer. rewrite Hm. destruct (loaded (model s2)); [|done]. simpl.
    pose proof (infer_try_result request start now
                  (active_inc s1) (active_inc s2) Hm) as Hres.
    destruct (infer_try request start now (active_inc s1)) as [r1 t1].
    destruct (infer_try request start now (active_inc s2)) as [r2 t2].
    simpl in Hres. subst r2. by destruct r1.
  - apply infer_model.
  - unfold infer. destruct (loaded (model s1)); [|done]. simpl.
    pose proof (infer_try_MODEL_LOADED request start now (active_inc s1)) as Hg.
    destruct (infer_try request start now (active_inc s1)) as [r1 t1].
    simpl in Hg. by destruct r1.
Qed.

Lemma infer_answer_ignores_metrics_witness :
  (infer "iris-classifier" batch_request 0%Q 1%Q started).1
    = (infer "iris-classifier" batch_request 0%Q 1%Q
         (mk_server (model started) None None None None)).1 /\
  model (infer "iris-classifier" batch_request 0%Q 1%Q started).2
    = model started /\
  MODEL_LOADED (infer "iris-classifier" batch_request 0%Q 1%Q started).2
    = MODEL_LOADED started.
Proof.
  apply (infer_answer_ignores_metrics "iris-classifier" batch_request 0%Q 1%Q
           started (mk_server (model started) None None None None)).
  reflexivity.
Defined.

(** X7.  [infer] answers 503 exactly when [/ready] refuses, and otherwise 200
    or 500: the handler itself never produces a 4xx status.  [/health]
    answers ["ok"] in either case and reports the flag. *)
Theorem infer_status_codes {A F : Type} `{FloatOps F} `{Float32Cast A F}
  (model_name : string) (request : InferenceRequest A) (start now : F)
  (s : Server F) :
  (http_status (infer model_name request start now s).1 = 503 <->
   ready s = inl (mk_http 503 (Text "Model not ready"))) /\
  (http_status (infer model_name request start now s).1 <> 503 ->
   ready s = inr "ready" /\
   (http_status (infer model_name request start now s).1 = 200 \/
    http_status (infer model_name request start now s).1 = 500)) /\
  health s = ("ok", loaded (model s), "iris-classifier").
Proof.
  assert (Hcases :
    loaded (model s) = false /\
      http_status (infer model_name request start now s).1 = 503 \/
    loaded (model s) = true /\
      (http_status (infer model_name request start now s).1 = 200 \/
       http_status (infer model_name request start now s).1 = 500)).
  { destruct (loaded (model s)) eqn:Hl.
    - right. split; [done|].
      destruct (infer_ready_cases model_name request start now s Hl)
        as [(e & -> & _)|(? & ? & ? & p & n & _ & _ & _ & _ & _ & _ & ->)];
        auto.
    - left. split; [done|]. unfold infer. by rewrite Hl. }
  unfold ready. split; [|split; [|done]].
  - destruct Hcases as [[-> ->]|[-> [->| ->]]]; simpl; split; done.
  - destruct Hcases as [[-> ->]|[-> Hst]]; simpl; [done|]. by intros _.
Qed.

Lemma infer_status_codes_witness :
  ready started = inr "ready" /\
  (http_status (infer "iris-classifier" short_request 0%Q 1%Q started).1 = 200 \/
   http_status (infer "iris-classifier" short_request 0%Q 1%Q started).1 = 500).
Proof.
  apply (infer_status_codes "iris-classifier" short_request 0%Q 1%Q started).
  vm_compute. discriminate.
Defined.

(** X8.  A successful call matches the metadata document: the array it decoded
    fits the one declared input, [[-1, 4]], and the first output of the
    response has the name, datatype and a shape fitting the one declared
    output, [[-1, 3]].  The second output, [predicted_class], is not
    declared by the document. *)
Theorem infer_matches_model_metadata {A F : Type} `{FloatOps F}
  `{Float32Cast A F} (model_name : string) (request : InferenceRequest A)
  (start now : F) (s : Server F) (resp : InferenceResponse F) :
  (infer model_name request start now s).1 = inr resp ->
  exists (inp : InferenceInput A) (rest : list (InferenceInput A))
         (raw : ndarray F) (declared_in declared_out : tensor_spec)
         (out extra : InferenceOutput F),
    md_inputs (model_metadata model_name) = [declared_in] /\
    md_outputs (model_metadata model_name) = [declared_out] /\
    inputs request = inp :: rest /\
    decode inp = Return raw /\
    shape_fits (ts_shape declared_in) (nd_shape raw) = true /\
    outputs resp = [out; extra] /\
    o_name out = ts_name declared_out /\
    o_datatype out = ts_datatype declared_out /\
    shape_fits (ts_shape declared_out) (o_shape out) = true /\
    o_name extra = "predicted_class".
Proof.
  intros Hok. destruct (loaded (model s)) eqn:Hl.
  2:{ unfold infer in Hok. by rewrite Hl in Hok. }
  destruct (infer_ready_cases model_name request start now s Hl)
    as [(e & Hrun & _)|(inp & rest & raw & p & n & Hin & Hd & _ & _ & Hsh & _ & Hrun)];
    rewrite Hrun in Hok; [discriminate|].
  injection Hok as <-.
  exists inp, rest, raw. do 4 eexists.
  split; [reflexivity|]. split; [reflexivity|]. split; [done|].
  split; [done|]. rewrite Hsh. simpl.
  split; [done|]. split; [reflexivity|]. simpl. done.
Qed.

Lemma infer_matches_model_metadata_witness :
  exists (inp : InferenceInput scalar) (rest : list (InferenceInput scalar))
         (raw : ndarray Q) (declared_in declared_out : tensor_spec)
         (out extra : InferenceOutput Q),
    md_inputs (model_metadata "iris-classifier") = [declared_in] /\
    md_outputs (model_metadata "iris-classifier") = [declared_out] /\
    inputs batch_request = inp :: rest /\
    decode inp = Return raw /\
    shape_fits (ts_shape declared_in) (nd_shape raw) = true /\
    outputs batch_response = [out; extra] /\
    o_name out = ts_name declared_out /\
    o_datatype out = ts_datatype declared_out /\
    shape_fits (ts_shape declared_out) (o_shape out) = true /\
    o_name extra = "predicted_class".
Proof.
  apply (infer_matches_model_metadata "iris-classifier" batch_request 0%Q 1%Q
           started batch_response).
  vm_compute. reflexivity.
Defined.

(** ** Runs of the process *)

Section RunFacts.
Context {A F : Type} `{FloatOps F} `{Float32Cast A F}.
Implicit Types (s : Server F) (c : call (A:=A) (F:=F)).

(** What one call does to the books of a ready process. *)
Lemma step_bookkeeping c s :
  loaded (model s) = true ->
  is_Some (REQUEST_COUNT s) ->
  is_Some (REQUEST_LATENCY s) ->
  loaded (model (step c s)) = true /\
  is_Some (REQUEST_COUNT (step c s)) /\
  is_Some (REQUEST_LATENCY (step c s)) /\
  ACTIVE_REQUESTS (step c s) = ACTIVE_REQUESTS s /\
  (request_count "success" (step c s) + request_count "error" (step c s)
   = request_count "success" s + request_count "error" s
     + (if is_infer c then 1 else 0))%nat /\
  (length (latencies (step c s)) + request_count "success" s
   = length (latencies s) + request_count "success" (step c s))%nat.
Proof.
  intros Hl Hc Hh.
  destruct c as [| |n|n request start now| |w]; simpl;
    try (repeat split; try done; lia).
  - destruct (infer_final_state n request start now s)
      as [[Hl' _]|[_ (mid & -> & [(err & _ & ->)|(resp & _ & ->)])]];
      [congruence| |].
    + split; [done|]. split; [simpl; by apply fmap_is_Some|].
      split; [done|]. split; [simpl; apply active_inc_dec|].
      change (request_count "success" (count_request "error" s)
              + request_count "error" (count_request "error" s)
              = request_count "success" s + request_count "error" s + 1
              /\ length (latencies s) + request_count "success" s
                 = length (latencies s)
                   + request_count "success" (count_request "error" s))%nat.
      rewrite !request_count_count_request by done. simpl. lia.
    + split; [done|]. split; [simpl; by apply fmap_is_Some|].
      split; [simpl; by apply fmap_is_Some|].
      split; [simpl; apply active_inc_dec|].
      change (request_count "success" (count_request "success" s)
              + request_count "error" (count_request "success" s)
              = request_count "success" s + request_count "error" s + 1
              /\ length (latencies (observe_latency (fsub now start) s))
                 + request_count "success" s
                 = length (latencies s)
                   + request_count "success" (count_request "success" s))%nat.
      rewrite !request_count_count_request by done.
      rewrite latencies_observe_latency by done.
      rewrite length_app. simpl. lia.
Qed.

(** X9.  However the routes and [load] are interleaved on a ready process,
    every request to the inference route is counted exactly once, as a
    success or as an error; one latency is recorded per success; the gauge
    of active requests is back where it started; and the model is still
    loaded. *)
Theorem run_counts_every_request (cs : list (call (A:=A) (F:=F))) s :
  loaded (model s) = true ->
  is_Some (REQUEST_COUNT s) ->
  is_Some (REQUEST_LATENCY s) ->
  (request_count "success" (run cs s) + request_count "error" (run cs s)
   = request_count "success" s + request_count "error" s + infer_calls cs)%nat /\
  (length (latencies (run cs s)) + request_count "success" s
   = length (latencies s) + request_count "success" (run cs s))%nat /\
  ACTIVE_REQUESTS (run cs s) = ACTIVE_REQUESTS s /\
  loaded (model (run cs s)) = true.
Proof.
  revert s. induction cs as [|c cs IH]; intros s Hl Hc Hh.
  - unfold run, infer_calls. simpl. repeat split; try done; lia.
  - destruct (step_bookkeeping c s Hl Hc Hh)
      as (Hl' & Hc' & Hh' & Hg & Hcount & Hlat).
    destruct (IH (step c s) Hl' Hc' Hh') as (IHcount & IHlat & IHg & IHl).
    change (run (c :: cs) s) with (run cs (step c s)).
    assert (Hcalls : infer_calls (c :: cs)
                     = ((if is_infer c then 1 else 0) + infer_calls cs)%nat).
    { unfold infer_calls. simpl. by destruct (is_infer c). }
    rewrite Hcalls. split; [lia|]. split; [lia|]. split; [congruence|done].
Qed.
End RunFacts.

Lemma run_counts_every_request_witness :
  (request_count "success" (run interleaved_calls started)
   + request_count "error" (run interleaved_calls started)
   = request_count "success" started + request_count "error" started
     + infer_calls interleaved_calls)%nat /\
  (length (latencies (run interleaved_calls started))
   + request_count "success" started
   = length (latencies started)
     + request_count "success" (run interleaved_calls started))%nat /\
  ACTIVE_REQUESTS (run interleaved_calls started) = ACTIVE_REQUESTS started /\
  loaded (model (run interleaved_calls started)) = true.
Proof.
  apply (run_counts_every_request interleaved_calls started).
  - reflexivity.
  - eexists. reflexivity.
  - eexists. reflexivity.
Defined.

(** Three requests, one of them malformed, between other calls. *)
Example interleaved_calls_counts :
  (request_count "success" (run interleaved_calls started),
   request_count "error" (run interleaved_calls started),
   length (latencies (run interleaved_calls started)))
  = (2%nat, 1%nat, 2%nat).
Proof. vm_compute. reflexivity. Qed.

(** ** The registry, continued *)

Lemma lookup_foldr_insert_In (c : collector) (names : list string)
  (m0 : gmap string collector) (k : string) :
  In k names -> foldr (fun n m => <[n := c]> m) m0 names !! k = Some c.
Proof.
  induction names as [|n names IH]; simpl; [done|].
  intros [->|Hk]; [by rewrite lookup_insert_eq|].
  destruct (decide (n = k)) as [->|Hne]; [by rewrite lookup_insert_eq|].
  rewrite lookup_insert_ne by done. auto.
Qed.

Lemma lookup_foldr_insert_not_In (c : collector) (names : list string)
  (m0 : gmap string collector) (k : string) :
  ~ In k names -> foldr (fun n m => <[n := c]> m) m0 names !! k = m0 !! k.
Proof.
  induction names as [|n names IH]; simpl; [done|].
  intros Hk. rewrite lookup_insert_ne by tauto. apply IH. tauto.
Qed.

Section RegistryMore.
Variable valid : metric_class -> string -> list string -> kwargs -> bool.

(** The helper passes [labels] on when it is a non-empty list, and no
    label names otherwise. *)
Lemma get_or_create_metric_unfold (cls : metric_class) (n description : string)
  (labels : option (list string)) (kw : kwargs) (reg : CollectorRegistry) :
  get_or_create_metric valid cls n description labels kw reg
  = match construct valid cls n description (default [] labels) kw reg with
    | Return (c, reg') => (Return (Some c), reg')
    | Raise ValueError => (Return (names_to_collectors reg !! n), reg)
    | Raise e => (Raise e, reg)
    end.
Proof. unfold get_or_create_metric. by destruct labels as [[|l ls]|]. Qed.

(** What a successful construction did. *)
Lemma construct_Return (cls : metric_class) (n description : string)
  (labelnames : list string) (kw : kwargs) (reg reg' : CollectorRegistry)
  (c : collector) :
  construct valid cls n description labelnames kw reg = Return (c, reg') ->
  accepts cls kw = true /\
  valid cls n labelnames kw = true /\
  c = mk_collector (next_id reg) cls (full_name cls n) labelnames /\
  Forall (fun m => names_to_collectors reg !! m = None)
    (metric_names cls (full_name cls n)) /\
  reg' = mk_registry
           (foldr (fun m acc => <[m := c]> acc) (names_to_collectors reg)
              (metric_names cls (full_name cls n)))
           (S (next_id reg)).
Proof.
  unfold construct.
  destruct (accepts cls kw); cbn [negb]; [|discriminate].
  destruct (valid cls n labelnames kw); cbn [negb]; [|discriminate].
  unfold register. cbn [c_class c_name].
  destruct (existsb _ _) eqn:Hdup; [discriminate|].
  cbn. intros [= <- <-]. repeat (split; [done|]). split; [|done].
  apply Forall_forall. intros m Hm%list_elem_of_In.
  destruct (names_to_collectors reg !! m) as [x|] eqn:Hx; [|done].
  assert (Hex : existsb
            (fun k => bool_decide (is_Some (names_to_collectors reg !! k)))
            (metric_names cls (full_name cls n)) = true).
  { apply existsb_exists. exists m. split; [done|].
    apply bool_decide_eq_true. by rewrite Hx. }
  congruence.
Qed.

Lemma construct_fresh (cls : metric_class) (n description : string)
  (labelnames : list string) (kw : kwargs) (reg : CollectorRegistry) :
  accepts cls kw = true ->
  valid cls n labelnames kw = true ->
  Forall (fun m => names_to_collectors reg !! m = None)
    (metric_names cls (full_name cls n)) ->
  construct valid cls n description labelnames kw reg
  = Return (mk_collector (next_id reg) cls (full_name cls n) labelnames,
            mk_registry
              (foldr (fun m acc =>
                        <[m := mk_collector (next_id reg) cls (full_name cls n)
                                 labelnames]> acc)
                 (names_to_collectors reg) (metric_names cls (full_name cls n)))
              (S (next_id reg))).
Proof.
  intros Hkw Hv Hfree. unfold construct. rewrite Hkw, Hv. cbn [negb].
  unfold register. cbn [c_class c_name].
  destruct (existsb _ _) eqn:Hdup; [|done].
  apply existsb_exists in Hdup as (m & Hm & Hreg).
  apply bool_decide_eq_true in Hreg. rewrite Forall_forall in Hfree.
  rewrite (Hfree m) in Hreg by (by apply list_elem_of_In).
  by destruct Hreg.
Qed.

(** A metric the helper hands out is registered under the requested
    name. *)
Lemma get_or_create_metric_Some (cls : metric_class) (n description : string)
  (labels : option (list string)) (kw : kwargs) (reg reg' : CollectorRegistry)
  (c : collector) :
  get_or_create_metric valid cls n description labels kw reg
    = (Return (Some c), reg') ->
  names_to_collectors reg' !! n = Some c.
Proof.
  rewrite get_or_create_metric_unfold.
  destruct (construct valid cls n description (default [] labels) kw reg)
    as [[c0 reg0]|e] eqn:Hmade.
  - intros [= <- <-].
    apply construct_Return in Hmade as (_ & _ & _ & _ & ->).
    cbn [names_to_collectors].
    apply lookup_foldr_insert_In, name_in_metric_names.
  - destruct e; intros [= Hn <-]; done.
Qed.

(** The helper never rebinds or removes a registered name. *)
Lemma get_or_create_metric_keeps (cls : metric_class) (n description : string)
  (labels : option (list string)) (kw : kwargs) (reg : CollectorRegistry)
  (m : string) (c : collector) :
  names_to_collectors reg !! m = Some c ->
  names_to_collectors
    (get_or_create_metric valid cls n description labels kw reg).2 !! m
  = Some c.
Proof.
  intros Hm. rewrite get_or_create_metric_unfold.
  destruct (construct valid cls n description (default [] labels) kw reg)
    as [[c0 reg0]|e] eqn:Hmade.
  - apply construct_Return in Hmade as (_ & _ & _ & Hfree & ->).
    cbn [snd names_to_collectors].
    rewrite lookup_foldr_insert_not_In; [done|].
    intros Hin%list_elem_of_In. rewrite Forall_forall in Hfree.
    rewrite (Hfree m Hin) in Hm. discriminate.
  - by destruct e.
Qed.
End RegistryMore.

(** X12.  When the arguments pass the constructor's checks and none of the
    metric's series names is taken, the helper creates the metric: a new
    object, registered under every one of its series names (the requested
    name among them), with all other names bound as before. *)
Theorem get_or_create_metric_creates
  (valid : metric_class -> string -> list string -> kwargs -> bool)
  (cls : metric_class) (n description : string) (labels : option (list string))
  (kw : kwargs) (reg : CollectorRegistry) :
  accepts cls kw = true ->
  valid cls n (default [] labels) kw = true ->
  Forall (fun m => names_to_collectors reg !! m = None)
    (metric_names cls (full_name cls n)) ->
  exists reg',
    get_or_create_metric valid cls n description labels kw reg
      = (Return (Some (mk_collector (next_id reg) cls (full_name cls n)
                         (default [] labels))), reg') /\
    next_id reg' = S (next_id reg) /\
    names_to_collectors reg' !! n
      = Some (mk_collector (next_id reg) cls (full_name cls n)
                (default [] labels)) /\
    (forall m, In m (metric_names cls (full_name cls n)) ->
       names_to_collectors reg' !! m
       = Some (mk_collector (next_id reg) cls (full_name cls n)
                 (default [] labels))) /\
    (forall m, ~ In m (metric_names cls (full_name cls n)) ->
       names_to_collectors reg' !! m = names_to_collectors reg !! m).
Proof.
  intros Hkw Hv Hfree. rewrite get_or_create_metric_unfold.
  rewrite (construct_fresh valid cls n description _ kw reg Hkw Hv Hfree).
  eexists. split; [reflexivity|]. cbn [next_id names_to_collectors].
  split; [done|]. split; [|split].
  - apply lookup_foldr_insert_In, name_in_metric_names.
  - intros m Hm. by apply lookup_foldr_insert_In.
  - intros m Hm. by apply lookup_foldr_insert_not_In.
Qed.

Lemma get_or_create_metric_creates_witness :
  exists reg',
    get_or_create_metric accept_all Counter "inference_requests_total"
      "Total inference requests" (Some ["model"; "status"]) None empty_registry
      = (Return (Some (mk_collector (next_id empty_registry) Counter
                         (full_name Counter "inference_requests_total")
                         (default [] (Some ["model"; "status"])))), reg') /\
    next_id reg' = S (next_id empty_registry) /\
    names_to_collectors reg' !! "inference_requests_total"
      = Some (mk_collector (next_id empty_registry) Counter
                (full_name Counter "inference_requests_total")
                (default [] (Some ["model"; "status"]))) /\
    (forall m,
       In m (metric_names Counter (full_name Counter "inference_requests_total")) ->
       names_to_collectors reg' !! m
       = Some (mk_collector (next_id empty_registry) Counter
                 (full_name Counter "inference_requests_total")
                 (default [] (Some ["model"; "status"])))) /\
    (forall m,
       ~ In m (metric_names Counter (full_name Counter "inference_requests_total")) ->
       names_to_collectors reg' !! m = names_to_collectors empty_registry !! m).
Proof.
  apply (get_or_create_metric_creates accept_all Counter
           "inference_requests_total" "Total inference requests"
           (Some ["model"; "status"]) None empty_registry).
  - reflexivity.
  - reflexivity.
  - repeat constructor.
Defined.

(** X13.  Calling the helper a second time with the same arguments gives what
    the first call gave and changes nothing more, whatever the first call
    did: created the metric, found it, returned [None] or raised. *)
Theorem get_or_create_metric_twice
  (valid : metric_class -> string -> list string -> kwargs -> bool)
  (cls : metric_class) (n description : string) (labels : option (list string))
  (kw : kwargs) (reg : CollectorRegistry) :
  get_or_create_metric valid cls n description labels kw
    (get_or_create_metric valid cls n description labels kw reg).2
  = get_or_create_metric valid cls n description labels kw reg.
Proof.
  destruct (get_or_create_metric valid cls n description labels kw reg)
    as [r reg1] eqn:Hfirst. cbn [snd].
  pose proof Hfirst as Hcase. rewrite get_or_create_metric_unfold in Hcase.
  destruct (construct valid cls n description (default [] labels) kw reg)
    as [[c0 reg0]|e] eqn:Hmade.
  - injection Hcase as <- <-.
    pose proof (get_or_create_metric_Some valid _ _ _ _ _ _ _ _ Hfirst) as Hn.
    apply construct_Return in Hmade as (Hkw & _).
    rewrite get_or_create_metric_registered by (by rewrite ?Hn).
    by rewrite Hn.
  - assert (reg1 = reg) as -> by (by destruct e; injection Hcase as _ <-).
    exact Hfirst.
Qed.

(** X14.  The helper is not always a getter: when construction is refused and
    the requested name itself is not registered (the arguments fail a
    check, or only another series name of the metric is taken), it returns
    [None], without an exception and without touching the registry. *)
Theorem get_or_create_metric_None
  (valid : metric_class -> string -> list string -> kwargs -> bool)
  (cls : metric_class) (n description : string) (labels : option (list string))
  (kw : kwargs) (reg : CollectorRegistry) :
  accepts cls kw = true ->
  names_to_collectors reg !! n = None ->
  valid cls n (default [] labels) kw = false \/
    Exists (fun m => is_Some (names_to_collectors reg !! m))
      (metric_names cls (full_name cls n)) ->
  get_or_create_metric valid cls n description labels kw reg
    = (Return None, reg).
Proof.
  intros Hkw Hn Hwhy. rewrite get_or_create_metric_unfold.
  destruct (construct valid cls n description (default [] labels) kw reg)
    as [[c0 reg0]|e] eqn:Hmade.
  - apply construct_Return in Hmade as (_ & Hv & _ & Hfree & _).
    destruct Hwhy as [Hbad|Hclash]; [congruence|].
    apply Exists_exists in Hclash as (m & Hm & Hreg).
    rewrite Forall_forall in Hfree. rewrite (Hfree m Hm) in Hreg.
    by destruct Hreg.
  - unfold construct in Hmade. rewrite Hkw in Hmade. cbn [negb] in Hmade.
    destruct (valid cls n (default [] labels) kw); cbn [negb] in Hmade.
    + unfold register in Hmade. destruct (existsb _ _); [|discriminate].
      injection Hmade as <-. by rewrite Hn.
    + injection Hmade as <-. by rewrite Hn.
Qed.

Lemma get_or_create_metric_None_witness :
  get_or_create_metric accept_all Counter "requests" "Requests" None None
    clashing_registry
  = (Return None, clashing_registry).
Proof.
  apply get_or_create_metric_None.
  - reflexivity.
  - vm_compute. reflexivity.
  - right. apply Exists_cons_tl, Exists_cons_hd. eexists. vm_compute.
    reflexivity.
Defined.

(** X15.  The helper never rebinds or removes a registered name, and never
    reuses an object identity. *)
Theorem get_or_create_metric_preserves
  (valid : metric_class -> string -> list string -> kwargs -> bool)
  (cls : metric_class) (n description : string) (labels : option (list string))
  (kw : kwargs) (reg : CollectorRegistry) (m : string) (c : collector) :
  names_to_collectors reg !! m = Some c ->
  names_to_collectors
    (get_or_create_metric valid cls n description labels kw reg).2 !! m
    = Some c /\
  (next_id reg
   <= next_id (get_or_create_metric valid cls n description labels kw reg).2)%nat.
Proof.
  intros Hm. split; [by apply get_or_create_metric_keeps|].
  rewrite get_or_create_metric_unfold.
  destruct (construct valid cls n description (default [] labels) kw reg)
    as [[c0 reg0]|e] eqn:Hmade.
  - apply construct_Return in Hmade as (_ & _ & _ & _ & ->). simpl. lia.
  - destruct e; simpl; lia.
Qed.

Lemma get_or_create_metric_preserves_witness :
  names_to_collectors
    (get_or_create_metric accept_all Gauge "queue_depth" "Queue depth" None None
       imported_registry).2 !! "model_loaded"
    = Some (mk_collector 3 Gauge "model_loaded" ["model"]) /\
  (next_id imported_registry
   <= next_id (get_or_create_metric accept_all Gauge "queue_depth" "Queue depth"
                 None None imported_registry).2)%nat.
Proof.
  apply get_or_create_metric_preserves. vm_compute. reflexivity.
Defined.

(** After an import that got its four metrics, each of the four names is
    bound to the object handed out for it. *)
Lemma module_metrics_registered
  (valid : metric_class -> string -> list string -> kwargs -> bool)
  (reg : CollectorRegistry) (a b c d : collector) :
  (module_metrics valid reg).1 = Return [Some a; Some b; Some c; Some d] ->
  names_to_collectors (module_metrics valid reg).2
    !! "inference_requests_total" = Some a /\
  names_to_collectors (module_metrics valid reg).2
    !! "inference_request_duration_seconds" = Some b /\
  names_to_collectors (module_metrics valid reg).2
    !! "inference_active_requests" = Some c /\
  names_to_collectors (module_metrics valid reg).2 !! "model_loaded" = Some d.
Proof.
  unfold module_metrics.
  destruct (get_or_create_metric valid Counter "inference_requests_total"
              "Total inference requests" (Some ["model"; "status"]) None reg)
    as [r1 reg1] eqn:H1.
  destruct (get_or_create_metric valid Histogram
              "inference_request_duration_seconds"
              "Inference latency in seconds" (Some ["model"])
              (Some [0.01; 0.025; 0.05; 0.1; 0.25; 0.5; 1.0; 2.5]%Q) reg1)
    as [r2 reg2] eqn:H2.
  destruct (get_or_create_metric valid Gauge "inference_active_requests"
              "Currently active inference requests" None None reg2)
    as [r3 reg3] eqn:H3.
  destruct (get_or_create_metric valid Gauge "model_loaded"
              "Whether model is loaded (1=yes 0=no)" (Some ["model"]) None reg3)
    as [r4 reg4] eqn:H4.
  cbn [fst snd]. intros Hall.
  destruct r1 as [x1|]; [|discriminate]. destruct r2 as [x2|]; [|discriminate].
  destruct r3 as [x3|]; [|discriminate]. destruct r4 as [x4|]; [|discriminate].
  injection Hall as -> -> -> ->.
  pose proof (get_or_create_metric_Some valid _ _ _ _ _ _ _ _ H1) as Ha.
  pose proof (get_or_create_metric_Some valid _ _ _ _ _ _ _ _ H2) as Hb.
  pose proof (get_or_create_metric_Some valid _ _ _ _ _ _ _ _ H3) as Hc.
  pose proof (get_or_create_metric_Some valid _ _ _ _ _ _ _ _ H4) as Hd.
  assert (Hkeep2 : forall m x, names_to_collectors reg1 !! m = Some x ->
                               names_to_collectors reg2 !! m = Some x).
  { intros m x Hm.
    pose proof (get_or_create_metric_keeps valid Histogram
                  "inference_request_duration_seconds"
                  "Inference latency in seconds" (Some ["model"])
                  (Some [0.01; 0.025; 0.05; 0.1; 0.25; 0.5; 1.0; 2.5]%Q)
                  reg1 _ _ Hm) as Hk.
    by rewrite H2 in Hk. }
  assert (Hkeep3 : forall m x, names_to_collectors reg2 !! m = Some x ->
                               names_to_collectors reg3 !! m = Some x).
  { intros m x Hm.
    pose proof (get_or_create_metric_keeps valid Gauge
                  "inference_active_requests"
                  "Currently active inference requests" None None
                  reg2 _ _ Hm) as Hk.
    by rewrite H3 in Hk. }
  assert (Hkeep4 : forall m x, names_to_collectors reg3 !! m = Some x ->
                               names_to_collectors reg4 !! m = Some x).
  { intros m x Hm.
    pose proof (get_or_create_metric_keeps valid Gauge "model_loaded"
                  "Whether model is loaded (1=yes 0=no)" (Some ["model"]) None
                  reg3 _ _ Hm) as Hk.
    by rewrite H4 in Hk. }
  auto 10.
Qed.

(** X16.  If importing the module gave it its four metrics, importing it again
    (a reload in the same process) gives it the same four objects and
    leaves the registry as the first import left it. *)
Theorem module_metrics_reload_same_objects
  (valid : metric_class -> string -> list string -> kwargs -> bool)
  (reg : CollectorRegistry) (a b c d : collector) :
  (module_metrics valid reg).1 = Return [Some a; Some b; Some c; Some d] ->
  module_metrics valid (module_metrics valid reg).2
  = (Return [Some a; Some b; Some c; Some d], (module_metrics valid reg).2).
Proof.
  intros (Ha & Hb & Hc & Hd)%module_metrics_registered.
  by apply module_metrics_reload.
Qed.

Lemma module_metrics_reload_same_objects_witness :
  module_metrics accept_all (module_metrics accept_all empty_registry).2
  = (Return [Some (mk_collector 0 Counter "inference_requests"
                     ["model"; "status"]);
             Some (mk_collector 1 Histogram "inference_request_duration_seconds"
                     ["model"]);
             Some (mk_collector 2 Gauge "inference_active_requests" []);
             Some (mk_collector 3 Gauge "model_loaded" ["model"])],
     (module_metrics accept_all empty_registry).2).
Proof.
  apply module_metrics_reload_same_objects. vm_compute. reflexivity.
Defined.

(** ** The load-test script *)

Section LoadTestFacts.
Context {F : Type} `{FloatOps F}.

Lemma sum_of_ones {T} (l : list T) :
  foldr Nat.add 0%nat (map (fun _ => 1%nat) l) = length l.
Proof. induction l as [|x l IH]; simpl; [done|]. by rewrite IH. Qed.

Lemma length_filter_le {T} (f : T -> bool) (l : list T) :
  (length (List.filter f l) <= length l)%nat.
Proof.
  induction l as [|x l IH]; simpl; [done|]. destruct (f x); simpl; lia.
Qed.

(** X17.  The report fails with [ZeroDivisionError] exactly when no request was
    sent.  Otherwise the successes are the entries answered 200, there is
    one latency per success, successes and failures add up to the total,
    the percentage lies between 0 and 100, and the latency statistics are
    printed exactly when there was a success. *)
Theorem report_counts (results : list (load_result F)) :
  match report results with
  | inl ZeroDivisionError => results = []
  | inr r =>
      results <> [] /\
      rp_total r = length results /\
      rp_success r = length (List.filter lr_ok results) /\
      length (rp_latencies r) = rp_success r /\
      Z.of_nat (rp_success r) + rp_failures r = Z.of_nat (rp_total r) /\
      0 <= rp_failures r /\
      (0 <= rp_percent r)%Q /\ (rp_percent r <= 100)%Q /\
      (rp_shows_latency r = true <-> (0 < rp_success r)%nat)
  end.
Proof.
  unfold report. rewrite sum_of_ones.
  destruct (Nat.eqb_spec (length results) 0) as [Hz|Hnz].
  { by apply length_zero_iff_nil. }
  cbn [rp_total rp_success rp_failures rp_latencies rp_percent
       rp_shows_latency].
  pose proof (length_filter_le lr_ok results) as Hle.
  set (k := length (List.filter lr_ok results)) in *.
  set (t := length results) in *.
  split; [by intros ->|]. split; [done|]. split; [done|].
  split; [by rewrite length_map|]. split; [lia|]. split; [lia|].
  split; [|split].
  - apply Qle_shift_div_l.
    + unfold Qlt. simpl. lia.
    + unfold Qle. simpl. lia.
  - apply Qle_shift_div_r.
    + unfold Qlt. simpl. lia.
    + unfold Qle. simpl. lia.
  - subst k. destruct (List.filter lr_ok results); simpl; split;
      (done || lia).
Qed.

Lemma send_all_map (sent : list (post_outcome * F * F)) :
  send_all sent
  = map (fun '(outcome, start, finish) =>
           match outcome with
           | Responded status =>
               mk_load_result status (fsub finish start) (status =? 200)%Z None
           | Failed message =>
               mk_load_result 0 (fsub finish start) false (Some message)
           end) sent.
Proof.
  unfold send_all.
  assert (Hgen : forall acc,
    foldl (fun results '(outcome, start, finish) =>
             send_request outcome start finish results) acc sent
    = acc ++ map (fun '(outcome, start, finish) =>
           match outcome with
           | Responded status =>
               mk_load_result status (fsub finish start) (status =? 200)%Z None
           | Failed message =>
               mk_load_result 0 (fsub finish start) false (Some message)
           end) sent).
  { induction sent as [|[[o st] fi] sent IH]; intros acc; simpl.
    - by rewrite app_nil_r.
    - rewrite IH. destruct o; simpl; by rewrite <- app_assoc. }
  apply (Hgen []).
Qed.

(** X18.  Every request sent is reported once: after a run that sent at least
    one request the total is the number of requests, the successes are the
    requests answered 200 (an exception of the client counts as a failure),
    and the latencies are [finish - start] of exactly those requests, in
    the order in which they completed. *)
Theorem report_after_send_all (sent : list (post_outcome * F * F)) :
  sent <> [] ->
  exists r,
    report (send_all sent) = inr r /\
    rp_total r = length sent /\
    rp_success r = length (List.filter answered_200 sent) /\
    rp_latencies r
    = map (fun '(_, start, finish) => fsub finish start)
        (List.filter answered_200 sent).
Proof.
  intros Hne. rewrite send_all_map. unfold report.
  rewrite length_map, sum_of_ones.
  destruct sent as [|x sent]; [done|]. cbn [length Nat.eqb].
  eexists. split; [reflexivity|].
  cbn [rp_total rp_success rp_latencies]. split; [done|].
  set (l := x :: sent). clearbody l. clear.
  induction l as [|[[o st] fi] l [IH1 IH2]]; [done|].
  cbn [map List.filter answered_200].
  destruct o as [status|msg]; cbn [lr_ok].
  - destruct (status =? 200)%Z; cbn [length map lr_duration]; split;
      congruence.
  - done.
Qed.
End LoadTestFacts.

Lemma report_after_send_all_witness :
  exists r,
    report (send_all [(Responded 200, 0%Q, 1%Q); (Failed "timeout", 1%Q, 6%Q);
                      (Responded 500, 2%Q, 3%Q)])
      = inr r /\
    rp_total r
      = length [(Responded 200, 0%Q, 1%Q); (Failed "timeout", 1%Q, 6%Q);
                (Responded 500, 2%Q, 3%Q)] /\
    rp_success r
      = length (List.filter answered_200
                  [(Responded 200, 0%Q, 1%Q); (Failed "timeout", 1%Q, 6%Q);
                   (Responded 500, 2%Q, 3%Q)]) /\
    rp_latencies r
    = map (fun '(_, start, finish) => fsub finish start)
        (List.filter answered_200
           [(Responded 200, 0%Q, 1%Q); (Failed "timeout", 1%Q, 6%Q);
            (Responded 500, 2%Q, 3%Q)]).
Proof.
  apply (report_after_send_all
           [(Responded 200, 0%Q, 1%Q); (Failed "timeout", 1%Q, 6%Q);
            (Responded 500, 2%Q, 3%Q)]).
  discriminate.
Defined.

(** [--duration 0]: nothing is sent and the report divides by zero. *)
Example report_of_nothing :
  report (F:=Q) (send_all []) = inl ZeroDivisionError.
Proof. reflexivity. Qed.

(** ** Loading the model *)

(** X19.  [load] makes any process ready: [/ready] answers, no request is
    turned away with 503, the weights are the ones just drawn, and the
    [model_loaded] gauge (when it exists) reads 1 for this model.  It
    leaves the request counter, the latencies and the gauge of active
    requests alone, and a later [load] replaces the weights of an earlier
    one without any other trace. *)
Theorem load_makes_ready {A F : Type} `{FloatOps F} `{Float32Cast A F}
  (w : nat -> nat -> F) (s : Server F) :
  ready (load w s) = inr "ready" /\
  (forall (model_name : string) (request : InferenceRequest A) (start now : F),
     http_status (infer model_name request start now (load w s)).1 <> 503) /\
  weights (model (load w s)) = w /\
  (fun g : gmap string Z => g !! "iris-classifier") <$> MODEL_LOADED (load w s)
    = (fun _ => Some 1) <$> MODEL_LOADED s /\
  REQUEST_COUNT (load w s) = REQUEST_COUNT s /\
  REQUEST_LATENCY (load w s) = REQUEST_LATENCY s /\
  ACTIVE_REQUESTS (load w s) = ACTIVE_REQUESTS s /\
  (forall w2 : nat -> nat -> F, load w2 (load w s) = load w2 s).
Proof.
  split; [done|]. split.
  { intros model_name request start now.
    destruct (infer_ready_cases model_name request start now (load w s) eq_refl)
      as [(e & -> & _)|(? & ? & ? & p & n & _ & _ & _ & _ & _ & _ & ->)];
      done. }
  split; [done|]. split.
  { unfold load. cbn [MODEL_LOADED]. destruct (MODEL_LOADED s) as [g|]; [|done].
    simpl. by rewrite lookup_insert_eq. }
  repeat (split; [done|]).
  intros w2. unfold load. cbn [model REQUEST_COUNT REQUEST_LATENCY
                               ACTIVE_REQUESTS MODEL_LOADED].
  f_equal. destruct (MODEL_LOADED s) as [g|]; [|done]. simpl.
  by rewrite insert_insert_eq.
Qed.
